(** * AI Operations Assistant: plan execution and result verification

    A shallow embedding of [src/agents/executor.py] (the [ExecutorAgent]
    methods [execute_plan] and [execute_step]) and of
    [src/agents/verifier.py] (the [VerifierAgent] methods [verify_results],
    [_format_final_answer] and [_incomplete]), followed by the properties
    the specification states about them.

    Python values are the JSON-shaped payloads the connectors exchange.
    Dictionaries held inside a payload are association lists (insertion
    order, string keys); the executor's [raw_data] and its tool registry are
    finite maps.  A connector call is a state transformer over an abstract
    outside world, so that two calls with the same arguments may answer
    differently, and every call is recorded in a log. *)

From Stdlib Require Import Ascii String ZArith.
From stdpp Require Import base option list strings pretty gmap.

#[local] Set Warnings "-register-all".
#[local] Open Scope string_scope.
#[local] Open Scope list_scope.

(** ** Python values *)

Inductive value : Type :=
| VNone
| VBool (b : bool)
| VInt (n : Z)
| VFloat (repr : string)     (* a float, carried by its [repr] text *)
| VStr (s : string)
| VList (items : list value)
| VDict (entries : list (string * value)).

(** The line feed, written ["\n"] in the source. *)
Definition nl : string := String "010"%char EmptyString.

(** [sep.join(parts)] *)
Fixpoint join (sep : string) (parts : list string) : string :=
  match parts with
  | [] => EmptyString
  | [p] => p
  | p :: rest => p +:+ sep +:+ join sep rest
  end.

(** [type(v).__name__] *)
Definition type_name (v : value) : string :=
  match v with
  | VNone => "NoneType"
  | VBool _ => "bool"
  | VInt _ => "int"
  | VFloat _ => "float"
  | VStr _ => "str"
  | VList _ => "list"
  | VDict _ => "dict"
  end.

(** [bool(v)]: the truth test behind [if v] and [not v]. *)
Definition truthy (v : value) : bool :=
  match v with
  | VNone => false
  | VBool b => b
  | VInt n => negb (n =? 0)%Z
  | VFloat r => negb (String.eqb r "0.0" || String.eqb r "-0.0")
  | VStr s => negb (String.eqb s EmptyString)
  | VList items => match items with [] => false | _ => true end
  | VDict entries => match entries with [] => false | _ => true end
  end.

(** [d.get(k)] on the entries of a dictionary. *)
Fixpoint dict_get (k : string) (d : list (string * value)) : option value :=
  match d with
  | [] => None
  | (k', v) :: rest => if String.eqb k k' then Some v else dict_get k rest
  end.

(** [k in d] *)
Definition dict_has (k : string) (d : list (string * value)) : bool :=
  match dict_get k d with Some _ => true | None => false end.

(** [isinstance(v, dict) and "error" in v]: the structural failure tag. *)
Definition is_error_payload (v : value) : bool :=
  match v with
  | VDict d => dict_has "error" d
  | _ => false
  end.

(** [{"error": msg}] *)
Definition error_payload (msg : string) : value := VDict [("error", VStr msg)].

(** A byte of the form 10xxxxxx continues a UTF-8 sequence. *)
Definition is_continuation (c : ascii) : bool :=
  let n := nat_of_ascii c in (128 <=? n)%nat && (n <? 192)%nat.

(** The characters of a [str], as iteration over it yields them: the text is
    held in UTF-8, one character is a lead byte with its continuations. *)
Fixpoint code_points (s : string) : list string :=
  match s with
  | EmptyString => []
  | String c rest =>
      let chunks := code_points rest in
      match rest with
      | String c' _ =>
          if is_continuation c' then
            match chunks with
            | chunk :: more => String c chunk :: more
            | [] => [String c EmptyString]
            end
          else String c EmptyString :: chunks
      | EmptyString => [String c EmptyString]
      end
  end.

Section PyStr.
(** [repr] of a [str] (quote selection and escaping) belongs to the
    interpreter; it is a parameter of the rendering. *)
Variable repr_str : string → string.

(** [repr(v)] *)
Fixpoint py_repr (v : value) : string :=
  match v with
  | VNone => "None"
  | VBool true => "True"
  | VBool false => "False"
  | VInt n => pretty n
  | VFloat r => r
  | VStr s => repr_str s
  | VList items => "[" +:+ join ", " (map py_repr items) +:+ "]"
  | VDict entries =>
      "{" +:+ join ", " (map (λ kv, repr_str (fst kv) +:+ ": " +:+ py_repr (snd kv)) entries)
          +:+ "}"
  end.

(** [str(v)], which is also what an f-string field [{v}] renders. *)
Definition py_str (v : value) : string :=
  match v with
  | VStr s => s
  | _ => py_repr v
  end.
End PyStr.

(** ** Exceptions *)

(** An instance of [Exception]: its class and its [str(e)]. *)
Record exn : Type := {
  exn_class : string;
  exn_str : string
}.

Definition AttributeError (msg : string) : exn :=
  {| exn_class := "AttributeError"; exn_str := msg |}.

Definition TypeError (msg : string) : exn :=
  {| exn_class := "TypeError"; exn_str := msg |}.

(** What evaluating a call does: it returns a value or raises. *)
Inductive result (A : Type) : Type :=
| Ok (a : A)
| Raise (e : exn).

Arguments Ok {A} a.
Arguments Raise {A} e.

#[export] Instance result_ret : MRet result := λ A a, Ok a.
#[export] Instance result_bind : MBind result :=
  λ A B f m, match m with Ok a => f a | Raise e => Raise e end.

(** ** Plans and execution results *)

(** A step of a plan, with the field types of the specification's data
    model; the planner's validation guarantees that "step_number", "action",
    "tool", "function" and "parameters" are present. *)
Record Step : Type := {
  step_number : Z;
  action : string;
  tool : string;
  function : string;
  parameters : list (string * value);
  reasoning : string
}.

(** A plan is read with [plan.get("task_understanding", "Unknown task")] and
    [plan.get("steps", [])]: both entries may be absent. *)
Record Plan : Type := {
  task_understanding : option string;
  required_tools : list string;
  steps : option (list Step);
  expected_output : string
}.

Record StepRecord : Type := {
  rec_step_number : Z;
  rec_action : string;
  rec_tool : string;
  rec_function : string;
  rec_status : string;
  rec_result : value
}.

Record ErrorEntry : Type := {
  err_step : Z;
  err_error : value
}.

(** [final_data] is an entry that may be missing from the dictionary:
    [None] is "no such key", [Some VNone] is the key bound to [None]. *)
Record ExecutionResult : Type := {
  task : string;
  steps_executed : list StepRecord;
  errors : list ErrorEntry;
  raw_data : gmap string value;
  final_data : option value
}.

(** ** The executor: [src/agents/executor.py] *)

Record Invocation : Type := {
  inv_tool : string;
  inv_function : string;
  inv_parameters : list (string * value)
}.

Section Executor.
(** The state of everything outside the process (remote services, clock). *)
Context {World : Type}.

(** A connector object: which attribute names it has, and what calling
    [getattr(tool, name)] with the parameters as keyword arguments does in a
    given world.  A connector answers from the network, so the callee is
    not modelled further. *)
Record Connector : Type := {
  hasattr : string → bool;
  call : string → list (string * value) → World → result value * World
}.

(** [self.tools] has exactly these four keys. *)
Record ExecutorAgent : Type := {
  github : Connector;
  weather : Connector;
  news : Connector;
  serp : Connector
}.

Definition tools (self : ExecutorAgent) : gmap string Connector :=
  <["github" := github self]>
  (<["weather" := weather self]>
  (<["news" := news self]>
  (<["serp" := serp self]> ∅))).

(** The world together with the log of the calls made so far. *)
Record Env : Type := {
  world : World;
  log : list Invocation
}.

(** A method body: it reads and changes the environment, and returns or
    raises. *)
Definition M (A : Type) : Type := Env → result A * Env.

#[local] Instance M_ret : MRet M := λ A a env, (Ok a, env).
#[local] Instance M_bind : MBind M :=
  λ A B f m env,
    match m env with
    | (Ok a, env') => f a env'
    | (Raise e, env') => (Raise e, env')
    end.

(** [try: body except Exception as e: handler] *)
Definition try_except {A : Type} (body : M A) (handler : exn → M A) : M A :=
  λ env,
    match body env with
    | (Ok a, env') => (Ok a, env')
    | (Raise e, env') => handler e env'
    end.

(** The call of [function] with [parameters] as keyword arguments, logged. *)
Definition invoke (tool_name : string) (tool : Connector) (function_name : string)
    (parameters : list (string * value)) : M value :=
  λ env,
    let '(r, w) := call tool function_name parameters (world env) in
    (r, {| world := w;
           log := log env ++ [ {| inv_tool := tool_name;
                                  inv_function := function_name;
                                  inv_parameters := parameters |} ] |}).

Definition execute_step (self : ExecutorAgent) (step : Step) : M value :=
  let tool_name := tool step in
  let function_name := function step in
  let parameters := parameters step in
  match tools self !! tool_name with
  | None => mret (error_payload ("Tool '" +:+ tool_name +:+ "' not found"))
  | Some tool =>
      if negb (hasattr tool function_name) then
        mret (error_payload ("Function '" +:+ function_name
                             +:+ "' not found in tool '" +:+ tool_name +:+ "'"))
      else
        try_except
          (result ← invoke tool_name tool function_name parameters;
           (* Retry once if tool returns error *)
           if is_error_payload result
           then invoke tool_name tool function_name parameters
           else mret result)
          (λ e, mret (error_payload ("Execution failed: " +:+ exn_str e)))
  end.

(** [f"step_{step_number}"] *)
Definition step_key (step_number : Z) : string := "step_" +:+ pretty step_number.

(** The body of the [for step in steps] loop once [step_result] is known:
    one record appended, [raw_data] written under the step key, and an
    [errors] entry when [step_result] is a dictionary holding "error"
    (the entry carries [step_result["error"]]). *)
Definition record_step (step : Step) (step_result : value)
    (results : ExecutionResult) : ExecutionResult :=
  let step_number := step_number step in
  {| task := task results;
     steps_executed :=
       steps_executed results ++
       [ {| rec_step_number := step_number;
            rec_action := action step;
            rec_tool := tool step;
            rec_function := function step;
            rec_status :=
              if negb (is_error_payload step_result) then "success" else "failed";
            rec_result := step_result |} ];
     errors :=
       match step_result with
       | VDict d =>
           match dict_get "error" d with
           | Some msg => errors results ++ [ {| err_step := step_number; err_error := msg |} ]
           | None => errors results
           end
       | _ => errors results
       end;
     raw_data := <[step_key step_number := step_result]> (raw_data results);
     final_data := final_data results |}.

(** [for step in steps: ...] *)
Fixpoint for_each_step (self : ExecutorAgent) (steps : list Step)
    (results : ExecutionResult) : M ExecutionResult :=
  match steps with
  | [] => mret results
  | step :: rest =>
      step_result ← execute_step self step;
      for_each_step self rest (record_step step step_result results)
  end.

(** The closing test of [execute_plan]: [not results["errors"] and
    results["raw_data"] and steps]; [steps] is true exactly when it has a
    last element [steps[-1]].  When the test passes the "final_data" entry
    is written with [results["raw_data"].get(last_step_key)]. *)
Definition designate_final (steps : list Step) (results : ExecutionResult)
    : ExecutionResult :=
  match errors results, bool_decide (raw_data results ≠ ∅), last steps with
  | [], true, Some last_step =>
      let last_step_key := step_key (step_number last_step) in
      {| task := task results;
         steps_executed := steps_executed results;
         errors := errors results;
         raw_data := raw_data results;
         final_data := Some (default VNone (raw_data results !! last_step_key)) |}
  | _, _, _ => results
  end.

Definition execute_plan (self : ExecutorAgent) (plan : Plan) : M ExecutionResult :=
  let results :=
    {| task := default "Unknown task" (task_understanding plan);
       steps_executed := [];
       errors := [];
       raw_data := ∅;
       final_data := None |} in
  let steps := default [] (steps plan) in
  results ← for_each_step self steps results;
  mret (designate_final steps results).

(** The steps run one after the other, each in the environment its
    predecessor left: the outcomes in plan order.  A step that raised would
    end the run. *)
Fixpoint run_steps (self : ExecutorAgent) (steps : list Step) : M (list value) :=
  match steps with
  | [] => mret []
  | step :: rest =>
      outcome ← execute_step self step;
      outcomes ← run_steps self rest;
      mret (outcome :: outcomes)
  end.
End Executor.

Arguments Connector : clear implicits.
Arguments ExecutorAgent : clear implicits.
Arguments Env : clear implicits.
Arguments M : clear implicits.

(** ** The verifier: [src/agents/verifier.py] *)

(** The Complete shape has no [raw_results] entry. *)
Record VerificationResult : Type := {
  is_complete : bool;
  confidence : string;
  final_answer : string;
  issues_found : list string;
  missing_data : list value;
  suggestions : list value;
  raw_results : option ExecutionResult
}.

(** [v.get(k, dflt)]: only a dictionary has the method. *)
Definition py_get (v : value) (k : string) (dflt : value) : result value :=
  match v with
  | VDict d => Ok (default dflt (dict_get k d))
  | _ => Raise (AttributeError ("'" +:+ type_name v +:+ "' object has no attribute 'get'"))
  end.

(** The elements a [for] loop (or [enumerate]) draws from [v]. *)
Definition py_iter (v : value) : result (list value) :=
  match v with
  | VList items => Ok items
  | VDict entries => Ok (map (λ kv, VStr (fst kv)) entries)
  | VStr s => Ok (map VStr (code_points s))
  | _ => Raise (TypeError ("'" +:+ type_name v +:+ "' object is not iterable"))
  end.

Definition articles_header : string :=
  "Here are the most recent Tesla-related news articles from the last month:" +:+ nl.

Definition no_articles : string := "No relevant news articles were found.".

Section Verifier.
Variable repr_str : string → string.

(** One turn of the loop over [enumerate(articles, start=1)]: the line
    appended to [lines]. *)
Definition format_article (i : Z) (article : value) : result string :=
  title ← py_get article "title" (VStr "No title");
  source ← py_get article "source" (VDict []) ≫= (λ s, py_get s "name" (VStr "Unknown source"));
  published ← py_get article "publishedAt" (VStr "Unknown date");
  url ← py_get article "url" (VStr EmptyString);
  mret (pretty i +:+ ". " +:+ py_str repr_str title +:+ nl
        +:+ "   Source: " +:+ py_str repr_str source +:+ nl
        +:+ "   Published: " +:+ py_str repr_str published +:+ nl
        +:+ "   Link: " +:+ py_str repr_str url +:+ nl).

Fixpoint format_articles (i : Z) (articles : list value) (lines : list string)
    : result (list string) :=
  match articles with
  | [] => Ok lines
  | article :: rest =>
      line ← format_article i article;
      format_articles (i + 1) rest (lines ++ [line])
  end.

(** The weather report; [d.get(k)] is [None] for a missing key. *)
Definition weather_report (d : list (string * value)) : string :=
  let get k := default VNone (dict_get k d) in
  "Current Weather Report:" +:+ nl
  +:+ "Temperature: " +:+ py_str repr_str (get "temperature")
  +:+ " " +:+ py_str repr_str (get "units") +:+ nl
  +:+ "Condition: " +:+ py_str repr_str (get "description") +:+ nl
  +:+ "Humidity: " +:+ py_str repr_str (get "humidity") +:+ "%" +:+ nl
  +:+ "Wind Speed: " +:+ py_str repr_str (get "wind_speed") +:+ " m/s".

(** [_format_final_answer].  The first test, [isinstance(data, dict) and
    "articles" in data], succeeds exactly when [data] is a dictionary in
    which the lookup of "articles" finds [data["articles"]]. *)
Definition format_final_answer (task : string) (data : value) : result string :=
  match data with
  | VDict d =>
      match dict_get "articles" d with
      | Some articles =>
          if negb (truthy articles) then Ok no_articles
          else
            items ← py_iter articles;
            lines ← format_articles 1 items [articles_header];
            mret (join nl lines)
      | None =>
          (* WEATHER RESULTS *)
          if dict_has "temperature" d then Ok (weather_report d)
          (* FALLBACK *)
          else Ok (py_str repr_str data)
      end
  | _ => Ok (py_str repr_str data)
  end.

(** [_incomplete] *)
Definition incomplete (reason : string) (execution_results : ExecutionResult)
    (confidence : string) : VerificationResult :=
  {| is_complete := false;
     confidence := confidence;
     final_answer := "Unable to fully complete the task: " +:+ reason +:+ ".";
     issues_found := [reason];
     missing_data := [];
     suggestions := [];
     raw_results := Some execution_results |}.

(** [verify_results]; [execution_results.get("final_data")] is [None] when
    the entry is missing. *)
Definition verify_results (original_task : string)
    (execution_results : ExecutionResult) (plan : Plan) : result VerificationResult :=
  match errors execution_results with
  | _ :: _ => Ok (incomplete "Execution errors occurred" execution_results "low")
  | [] =>
      let final_data := default VNone (final_data execution_results) in
      if negb (truthy final_data) then
        Ok (incomplete "No data returned from tools" execution_results "low")
      else
        final_answer ← format_final_answer original_task final_data;
        mret {| is_complete := true;
                confidence := "high";
                final_answer := final_answer;
                issues_found := [];
                missing_data := [];
                suggestions := [];
                raw_results := None |}
  end.
End Verifier.

(** ** Notions used to state the properties *)

(** The log entry of a call made for [step]. *)
Definition invocation_of (step : Step) : Invocation :=
  {| inv_tool := tool step; inv_function := function step;
     inv_parameters := parameters step |}.

(** The failure value the [except] clause of [execute_step] builds. *)
Definition execution_failed (e : exn) : value :=
  error_payload ("Execution failed: " +:+ exn_str e).

(** The record [execute_plan] appends for a step whose outcome is known. *)
Definition step_record (step : Step) (step_result : value) : StepRecord :=
  {| rec_step_number := step_number step;
     rec_action := action step;
     rec_tool := tool step;
     rec_function := function step;
     rec_status := if is_error_payload step_result then "failed" else "success";
     rec_result := step_result |}.

(** The [errors] entry a record calls for: one when its result is a
    dictionary holding "error", none otherwise. *)
Definition error_entry (r : StepRecord) : option ErrorEntry :=
  match rec_result r with
  | VDict d =>
      (λ msg, {| err_step := rec_step_number r; err_error := msg |}) <$> dict_get "error" d
  | _ => None
  end.

(** The loop of [execute_plan] unrolled over steps paired with their
    outcomes. *)
Definition record_all (done : list (Step * value)) (results : ExecutionResult)
    : ExecutionResult :=
  fold_left (λ acc so, record_step (fst so) (snd so) acc) done results.

(** What [execute_plan] starts from. *)
Definition initial_results (plan : Plan) : ExecutionResult :=
  {| task := default "Unknown task" (task_understanding plan);
     steps_executed := [];
     errors := [];
     raw_data := ∅;
     final_data := None |}.

(** An article the news rendering can print: a dictionary whose "source"
    entry, when there is one, is a dictionary too. *)
Definition printable_article (article : value) : bool :=
  match article with
  | VDict d =>
      match dict_get "source" d with
      | Some (VDict _) | None => true
      | Some _ => false
      end
  | _ => false
  end.

(** A payload [_format_final_answer] renders without raising: anything but
    a dictionary whose "articles" entry is true and is not a list of
    printable articles. *)
Definition renders (data : value) : bool :=
  match data with
  | VDict d =>
      match dict_get "articles" d with
      | Some articles =>
          negb (truthy articles) ||
          match articles with
          | VList items => forallb printable_article items
          | _ => false
          end
      | None => true
      end
  | _ => true
  end.

(** The two shapes of a verification result. *)
Definition complete_shape (vr : VerificationResult) : Prop :=
  is_complete vr = true ∧ confidence vr = "high" ∧ issues_found vr = [] ∧
  missing_data vr = [] ∧ suggestions vr = [] ∧ raw_results vr = None.

Definition incomplete_shape (r : ExecutionResult) (vr : VerificationResult) : Prop :=
  is_complete vr = false ∧ confidence vr = "low" ∧ (∃ reason, issues_found vr = [reason]) ∧
  missing_data vr = [] ∧ suggestions vr = [] ∧ raw_results vr = Some r.

(** ** Fixtures *)

(** A connector that answers from a script: the world is the list of the
    answers still to come, and each call consumes one. *)
Definition scripted (names : list string) : Connector (list (result value)) :=
  {| hasattr := λ name, bool_decide (name ∈ names);
     call := λ _ _ w,
       match w with
       | [] => (Raise {| exn_class := "RuntimeError"; exn_str := "script exhausted" |}, [])
       | r :: rest => (r, rest)
       end |}.

Definition sample_agent : ExecutorAgent (list (result value)) :=
  {| github := scripted ["search_repositories"; "get_repository"; "get_user_repos"];
     weather := scripted ["get_current_weather"; "get_weather_forecast";
                          "get_weather_by_coordinates"];
     news := scripted ["get_top_headlines"; "search_news"; "get_sources"];
     serp := scripted ["search"; "search_news"; "search_images"; "get_answer_box"] |}.

Definition sample_step (n : Z) (tool_name function_name : string) : Step :=
  {| step_number := n;
     action := "Retrieve data";
     tool := tool_name;
     function := function_name;
     parameters := [("city", VStr "Paris")];
     reasoning := "The user asked for it" |}.

Definition sample_plan (steps : list Step) : Plan :=
  {| task_understanding := Some "Get current weather for Paris";
     required_tools := ["weather"];
     steps := Some steps;
     expected_output := "Current weather details for Paris" |}.

Definition sample_env (script : list (result value)) : Env (list (result value)) :=
  {| world := script; log := [] |}.

Definition sample_weather : value :=
  VDict [("temperature", VInt 21); ("units", VStr "°C"); ("description", VStr "clear sky");
         ("humidity", VInt 40); ("wind_speed", VFloat "3.1")].

Definition sample_failure : value := error_payload "Weather API request failed: timeout".

Definition sample_results (errs : list ErrorEntry) (final : option value) : ExecutionResult :=
  {| task := "Get current weather for Paris";
     steps_executed := [];
     errors := errs;
     raw_data := ∅;
     final_data := final |}.

(** A stand-in for the interpreter's [repr] of a [str]. *)
Definition sample_repr (s : string) : string := "'" +:+ s +:+ "'".

(** ** The report: [VerifierAgent.format_output] *)

(** [s * n] *)
Fixpoint str_repeat (s : string) (n : nat) : string :=
  match n with
  | O => EmptyString
  | S n' => s +:+ str_repeat s n'
  end.

(** The upper-case form of an ASCII character: a to z become A to Z. *)
Definition ascii_upper (c : ascii) : ascii :=
  let n := nat_of_ascii c in
  if (97 <=? n)%nat && (n <=? 122)%nat then ascii_of_nat (n - 32) else c.

Section Report.
(** The upper-case mapping of a character outside ASCII comes from the
    interpreter's Unicode tables; it is a parameter. *)
Variable upper_char : string → string.

(** [s.upper()]: each character is mapped on its own. *)
Definition py_upper (s : string) : string :=
  fold_right
    (λ ch acc,
       match ch with
       | String c EmptyString =>
           if (nat_of_ascii c <? 128)%nat then String (ascii_upper c) acc
           else upper_char ch +:+ acc
       | _ => upper_char ch +:+ acc
       end)
    EmptyString (code_points s).

(** The list [output] that [format_output] joins. *)
Definition format_output_lines (verification_result : VerificationResult) : list string :=
  let bar := str_repeat "=" 60 in
  let status := if is_complete verification_result then "✓ COMPLETE" else "⚠ INCOMPLETE" in
  [bar; "AI OPERATIONS ASSISTANT - RESULTS"; bar;
   nl +:+ "Status: " +:+ status;
   "Confidence: " +:+ py_upper (confidence verification_result)]
  ++ match issues_found verification_result with
     | [] => []
     | issues => (nl +:+ "⚠ Issues Found:") :: map (λ issue, "  - " +:+ issue) issues
     end
  ++ [nl +:+ bar; "ANSWER:"; bar; final_answer verification_result; nl +:+ bar].

Definition format_output (verification_result : VerificationResult) : string :=
  join nl (format_output_lines verification_result).
End Report.

(** ** Configuration status: [ExecutorAgent.get_tool_status] and the
    [/health] endpoint of [src/main.py] *)

(** [bool(os.environ.get(name))]: set, and not to the empty string. *)
Definition configured (environ : gmap string string) (name : string) : bool :=
  match environ !! name with
  | Some v => negb (String.eqb v EmptyString)
  | None => false
  end.

Definition get_tool_status (environ : gmap string string) : gmap string bool :=
  <["github" := configured environ "GITHUB_API_KEY"]>
  (<["weather" := configured environ "OPENWEATHER_API_KEY"]>
  (<["news" := configured environ "NEWS_API_KEY"]>
  (<["serp" := configured environ "SERP_API_KEY"]> ∅))).

(** [all(d.values())] *)
Definition all_values (d : gmap string bool) : bool :=
  bool_decide (map_Forall (λ _ b, b = true) d).

Record Health : Type := {
  health_status : string;
  health_agents : gmap string string;
  api_keys_configured : gmap string bool;
  tools_available : gmap string bool
}.

Definition health_check (environ : gmap string string) : Health :=
  let env_status : gmap string bool :=
    <["NEBIUS_API_KEY" := configured environ "NEBIUS_API_KEY"]>
    (<["GITHUB_API_KEY" := configured environ "GITHUB_API_KEY"]>
    (<["OPENWEATHER_API_KEY" := configured environ "OPENWEATHER_API_KEY"]>
    (<["NEWS_API_KEY" := configured environ "NEWS_API_KEY"]>
    (<["SERP_API_KEY" := configured environ "SERP_API_KEY"]> ∅)))) in
  let all_configured := all_values env_status in
  {| health_status := if all_configured then "healthy" else "partially_configured";
     health_agents :=
       <["planner" := "ready"]> (<["executor" := "ready"]> (<["verifier" := "ready"]> ∅));
     api_keys_configured := env_status;
     tools_available := get_tool_status environ |}.

(** ** The planner: [src/agents/planner.py] *)

Definition ValueError (msg : string) : exn :=
  {| exn_class := "ValueError"; exn_str := msg |}.

Definition IndexError (msg : string) : exn :=
  {| exn_class := "IndexError"; exn_str := msg |}.

Definition KeyError (msg : string) : exn :=
  {| exn_class := "KeyError"; exn_str := msg |}.

(** [try: body except Exception as e: handler] for code without effects. *)
Definition catch {A : Type} (body : result A) (handler : exn → result A) : result A :=
  match body with
  | Ok a => Ok a
  | Raise e => handler e
  end.

(** [s.startswith(p)] *)
Fixpoint is_prefix (p s : string) : bool :=
  match p, s with
  | EmptyString, _ => true
  | String a p', String b s' => Ascii.eqb a b && is_prefix p' s'
  | String _ _, EmptyString => false
  end.

(** [needle in hay] for two strings *)
Fixpoint is_substring (needle hay : string) : bool :=
  is_prefix needle hay ||
  match hay with
  | EmptyString => false
  | String _ rest => is_substring needle rest
  end.

(** [item in container] for a string [item]: a key of a dictionary, an
    element of a list (only a [str] compares equal to a [str]), a substring
    of a string; any other container raises [TypeError] (message as worded
    by CPython up to 3.13). *)
Definition py_in (item : string) (container : value) : result bool :=
  match container with
  | VDict d => Ok (dict_has item d)
  | VList items =>
      Ok (existsb (λ v, match v with VStr s => String.eqb s item | _ => false end) items)
  | VStr s => Ok (is_substring item s)
  | _ => Raise (TypeError ("argument of type '" +:+ type_name container
                           +:+ "' is not iterable"))
  end.

(** [all(field in container for field in fields)]: stops at the first
    field that is missing. *)
Fixpoint all_in (fields : list string) (container : value) : result bool :=
  match fields with
  | [] => Ok true
  | name :: rest =>
      found ← py_in name container;
      if (found : bool) then all_in rest container else Ok false
  end.

Definition required_fields : list string :=
  ["task_understanding"; "required_tools"; "steps"; "expected_output"].

Definition step_fields : list string :=
  ["step_number"; "action"; "tool"; "function"; "parameters"].

Section Planner.
Variable repr_str : string → string.

(** [container[key]] for a string [key]; the [str] of a [KeyError] is the
    [repr] of the key. *)
Definition py_item (container : value) (key : string) : result value :=
  match container with
  | VDict d =>
      match dict_get key d with
      | Some v => Ok v
      | None => Raise (KeyError (repr_str key))
      end
  | VList _ => Raise (TypeError "list indices must be integers or slices, not str")
  | VStr _ => Raise (TypeError "string indices must be integers, not 'str'")
  | _ => Raise (TypeError ("'" +:+ type_name container +:+ "' object is not subscriptable"))
  end.

(** [for step in plan["steps"]: if not all(...): return False] *)
Fixpoint validate_steps (plan_steps : list value) : result bool :=
  match plan_steps with
  | [] => Ok true
  | step :: rest =>
      present ← all_in step_fields step;
      if negb present then Ok false else validate_steps rest
  end.

(** [_validate_plan] *)
Definition validate_plan (plan : value) : result bool :=
  present ← all_in required_fields plan;
  if negb present then Ok false
  else
    plan_steps ← py_item plan "steps";
    match plan_steps with
    | VList plan_steps => validate_steps plan_steps
    | _ => Ok false
    end.

(** The plan [create_plan] returns from its [except] clause. *)
Definition fallback_plan (user_task : string) (e : exn) : value :=
  VDict [("task_understanding", VStr user_task);
         ("required_tools", VList []);
         ("steps", VList []);
         ("expected_output", VStr "Planning failed");
         ("error", VStr (exn_str e))].

(** [create_plan].  [generated] is what the call
    [self.llm.generate_json(...)] does: the language model is outside the
    program. *)
Definition create_plan (generated : result value) (user_task : string) : result value :=
  catch
    (plan ← generated;
     valid ← validate_plan plan;
     if negb valid then Raise (ValueError "Generated plan does not match required schema")
     else Ok plan)
    (λ e, Ok (fallback_plan user_task e)).
End Planner.

(** ** The connectors: [src/tools] *)

(** What the three request lines of a connector method do
    ([requests.get], [raise_for_status], [response.json()]): they yield the
    decoded body, or raise a [RequestException] whose [str] is [msg], or
    raise something else. *)
Inductive http_outcome : Type :=
| HttpJson (data : value)
| HttpFailed (msg : string)
| HttpRaised (e : exn).

(** [v == s] for a string [s] *)
Definition eq_str (v : value) (s : string) : bool :=
  match v with
  | VStr s' => String.eqb s' s
  | _ => false
  end.

(** [v[0]] *)
Definition py_first (v : value) : result value :=
  match v with
  | VList (x :: _) => Ok x
  | VList [] => Raise (IndexError "list index out of range")
  | VStr s =>
      match code_points s with
      | c :: _ => Ok (VStr c)
      | [] => Raise (IndexError "string index out of range")
      end
  | VDict _ => Raise (KeyError "0")
  | _ => Raise (TypeError ("'" +:+ type_name v +:+ "' object is not subscriptable"))
  end.

(** [data.get(outer, {}).get(inner)] *)
Definition get_nested (data : value) (outer inner : string) : result value :=
  nested ← py_get data outer (VDict []);
  py_get nested inner VNone.

(** [data.get("weather", [{}])[0].get(inner)] *)
Definition get_first_weather (data : value) (inner : string) : result value :=
  conditions ← py_get data "weather" (VList [VDict []]);
  first ← py_first conditions;
  py_get first inner VNone.

(** ["°C" if units == "metric" else "°F" if units == "imperial" else "K"] *)
Definition units_label (units : value) : string :=
  if eq_str units "metric" then "°C"
  else if eq_str units "imperial" then "°F"
  else "K".

(** [WeatherTool.get_current_weather], given the outcome of its request.
    The entries of the dictionary are evaluated in the order written. *)
Definition get_current_weather (http : http_outcome) (units : value) : result value :=
  match http with
  | HttpJson data =>
      city ← py_get data "name" VNone;
      country ← get_nested data "sys" "country";
      temperature ← get_nested data "main" "temp";
      feels_like ← get_nested data "main" "feels_like";
      temp_min ← get_nested data "main" "temp_min";
      temp_max ← get_nested data "main" "temp_max";
      humidity ← get_nested data "main" "humidity";
      pressure ← get_nested data "main" "pressure";
      weather_main ← get_first_weather data "main";
      description ← get_first_weather data "description";
      wind_speed ← get_nested data "wind" "speed";
      clouds ← get_nested data "clouds" "all";
      Ok (VDict [("city", city); ("country", country); ("temperature", temperature);
                 ("feels_like", feels_like); ("temp_min", temp_min);
                 ("temp_max", temp_max); ("humidity", humidity); ("pressure", pressure);
                 ("weather", weather_main); ("description", description);
                 ("wind_speed", wind_speed); ("clouds", clouds);
                 ("units", VStr (units_label units))])
  | HttpFailed msg => Ok (error_payload ("Weather API request failed: " +:+ msg))
  | HttpRaised e => Raise e
  end.

(** [for item in items: out.append(build(item))] *)
Fixpoint collect (build : value → result value) (items : list value) : result (list value) :=
  match items with
  | [] => Ok []
  | item :: rest =>
      entry ← build item;
      entries ← collect build rest;
      Ok (entry :: entries)
  end.

(** The dictionary [NewsTool] builds for one article. *)
Definition news_article (article : value) : result value :=
  title ← py_get article "title" VNone;
  description ← py_get article "description" VNone;
  source ← get_nested article "source" "name";
  author ← py_get article "author" VNone;
  url ← py_get article "url" VNone;
  published_at ← py_get article "publishedAt" VNone;
  content ← py_get article "content" VNone;
  Ok (VDict [("title", title); ("description", description); ("source", source);
             ("author", author); ("url", url); ("published_at", published_at);
             ("content", content)]).

(** [NewsTool.search_news] and [NewsTool.get_top_headlines], given the
    outcome of the request: the two methods differ only in the request they
    send. *)
Definition search_news (http : http_outcome) : result value :=
  match http with
  | HttpJson data =>
      listed ← py_get data "articles" (VList []);
      items ← py_iter listed;
      articles ← collect news_article items;
      Ok (VList articles)
  | HttpFailed msg => Ok (VList [error_payload ("News API request failed: " +:+ msg)])
  | HttpRaised e => Raise e
  end.

(** The dictionary [GitHubTool.search_repositories] builds for one item. *)
Definition github_repo (item : value) : result value :=
  name ← py_get item "name" VNone;
  full_name ← py_get item "full_name" VNone;
  description ← py_get item "description" VNone;
  stars ← py_get item "stargazers_count" VNone;
  forks ← py_get item "forks_count" VNone;
  language ← py_get item "language" VNone;
  url ← py_get item "html_url" VNone;
  topics ← py_get item "topics" (VList []);
  Ok (VDict [("name", name); ("full_name", full_name); ("description", description);
             ("stars", stars); ("forks", forks); ("language", language); ("url", url);
             ("topics", topics)]).

(** [GitHubTool.search_repositories], given the outcome of its request. *)
Definition search_repositories (http : http_outcome) : result value :=
  match http with
  | HttpJson data =>
      listed ← py_get data "items" (VList []);
      items ← py_iter listed;
      repos ← collect github_repo items;
      Ok (VList repos)
  | HttpFailed msg => Ok (VList [error_payload ("GitHub API request failed: " +:+ msg)])
  | HttpRaised e => Raise e
  end.

(** [a or b], where [b] is evaluated only when [a] is false. *)
Definition py_or (a : value) (b : result value) : result value :=
  if truthy a then Ok a else b.

(** [SerpTool.get_answer_box], given the outcome of its request. *)
Definition get_answer_box (http : http_outcome) : result value :=
  match http with
  | HttpJson data =>
      answer_box ← py_get data "answer_box" VNone;
      if truthy answer_box then
        direct ← py_get answer_box "answer" VNone;
        answer ← py_or direct (py_get answer_box "snippet" VNone);
        title ← py_get answer_box "title" VNone;
        link ← py_get answer_box "link" VNone;
        type ← py_get answer_box "type" VNone;
        Ok (VDict [("answer", answer); ("title", title); ("link", link); ("type", type)])
      else
        knowledge_graph ← py_get data "knowledge_graph" VNone;
        if truthy knowledge_graph then
          answer ← py_get knowledge_graph "description" VNone;
          title ← py_get knowledge_graph "title" VNone;
          Ok (VDict [("answer", answer); ("title", title);
                     ("type", VStr "knowledge_graph")])
        else Ok VNone
  | HttpFailed msg => Ok (error_payload ("SERP API request failed: " +:+ msg))
  | HttpRaised e => Raise e
  end.

(** ** Notions used to state the properties of the connectors *)

(** The entry under [k] is missing or is a dictionary. *)
Definition dict_or_missing (d : list (string * value)) (k : string) : bool :=
  match dict_get k d with
  | None | Some (VDict _) => true
  | Some _ => false
  end.

(** A response body from which [get_current_weather] can read every
    field: a dictionary whose "sys", "main", "wind" and "clouds" entries are
    missing or dictionaries, and whose "weather" entry is missing or a list
    that starts with a dictionary. *)
Definition weather_body_ok (data : value) : bool :=
  match data with
  | VDict d =>
      dict_or_missing d "sys" && dict_or_missing d "main" &&
      match dict_get "weather" d with
      | None | Some (VList (VDict _ :: _)) => true
      | Some _ => false
      end &&
      dict_or_missing d "wind" && dict_or_missing d "clouds"
  | _ => false
  end.

Section Entries.
Variable repr_str : string → string.

(** The entry [_format_final_answer] prints for the article with these
    fields under the number [i]. *)
Definition article_entry (i : Z) (fields : list (string * value)) : string :=
  pretty i +:+ ". "
  +:+ py_str repr_str (default (VStr "No title") (dict_get "title" fields)) +:+ nl
  +:+ "   Source: "
  +:+ py_str repr_str
        (match dict_get "source" fields with
         | Some (VDict source) => default (VStr "Unknown source") (dict_get "name" source)
         | _ => VStr "Unknown source"
         end) +:+ nl
  +:+ "   Published: "
  +:+ py_str repr_str (default (VStr "Unknown date") (dict_get "publishedAt" fields)) +:+ nl
  +:+ "   Link: " +:+ py_str repr_str (default (VStr EmptyString) (dict_get "url" fields))
  +:+ nl.
End Entries.

(** The dictionary [NewsTool] returns for the article with these fields. *)
Definition news_entry (fields : list (string * value)) : value :=
  VDict [("title", default VNone (dict_get "title" fields));
         ("description", default VNone (dict_get "description" fields));
         ("source",
          match dict_get "source" fields with
          | Some (VDict source) => default VNone (dict_get "name" source)
          | _ => VNone
          end);
         ("author", default VNone (dict_get "author" fields));
         ("url", default VNone (dict_get "url" fields));
         ("published_at", default VNone (dict_get "publishedAt" fields));
         ("content", default VNone (dict_get "content" fields))].

(** ** The other two weather methods *)

Section WeatherMethods.
Variable repr_str : string → string.
(** What slicing a dictionary raises depends on the interpreter version
    ([TypeError] for an unhashable slice, [KeyError] since slices hash). *)
Variable dict_slice_error : exn.

(** [v[:8]] *)
Definition py_first8 (v : value) : result value :=
  match v with
  | VList items => Ok (VList (take 8 items))
  | VStr s => Ok (VStr (fold_right String.append EmptyString (take 8 (code_points s))))
  | VDict _ => Raise dict_slice_error
  | _ => Raise (TypeError ("'" +:+ type_name v +:+ "' object is not subscriptable"))
  end.

(** The dictionary [get_weather_forecast] builds for one interval. *)
Definition forecast_item (item : value) : result value :=
  datetime ← py_get item "dt_txt" VNone;
  temperature ← get_nested item "main" "temp";
  weather_main ← get_first_weather item "main";
  description ← get_first_weather item "description";
  humidity ← get_nested item "main" "humidity";
  wind_speed ← get_nested item "wind" "speed";
  Ok (VDict [("datetime", datetime); ("temperature", temperature);
             ("weather", weather_main); ("description", description);
             ("humidity", humidity); ("wind_speed", wind_speed)]).

(** [WeatherTool.get_weather_forecast], given the outcome of its request. *)
Definition get_weather_forecast (http : http_outcome) (units : value) : result value :=
  match http with
  | HttpJson data =>
      listed ← py_get data "list" (VList []);
      next_day ← py_first8 listed;
      items ← py_iter next_day;
      forecasts ← collect forecast_item items;
      city ← get_nested data "city" "name";
      country ← get_nested data "city" "country";
      Ok (VDict [("city", city); ("country", country); ("forecasts", VList forecasts);
                 ("units", VStr (units_label units))])
  | HttpFailed msg => Ok (error_payload ("Weather API request failed: " +:+ msg))
  | HttpRaised e => Raise e
  end.

(** [WeatherTool.get_weather_by_coordinates], given the outcome of its
    request. *)
Definition get_weather_by_coordinates (http : http_outcome) (units : value)
    : result value :=
  match http with
  | HttpJson data =>
      name ← py_get data "name" VNone;
      country ← get_nested data "sys" "country";
      temperature ← get_nested data "main" "temp";
      feels_like ← get_nested data "main" "feels_like";
      weather_main ← get_first_weather data "main";
      description ← get_first_weather data "description";
      humidity ← get_nested data "main" "humidity";
      wind_speed ← get_nested data "wind" "speed";
      Ok (VDict [("location",
                  VStr (py_str repr_str name +:+ ", " +:+ py_str repr_str country));
                 ("temperature", temperature); ("feels_like", feels_like);
                 ("weather", weather_main); ("description", description);
                 ("humidity", humidity); ("wind_speed", wind_speed);
                 ("units", VStr (units_label units))])
  | HttpFailed msg => Ok (error_payload ("Weather API request failed: " +:+ msg))
  | HttpRaised e => Raise e
  end.
End WeatherMethods.

(** ** Connector objects and their attributes *)

Section ConnectorObjects.
Context {World : Type}.

(** An attribute of a connector object: a data attribute, as [__init__]
    sets [api_key] and [base_url], or a method of the class.  Only a method
    is a capability. *)
Inductive attribute : Type :=
| DataAttribute (v : value)
| Method (body : list (string * value) → World → result value * World).

(** The connector an object with these attributes is.  [hasattr] finds
    every attribute, method or not; calling a data attribute raises
    [TypeError] and runs nothing; [getattr] of a name the object lacks
    raises [AttributeError]. *)
Definition object_connector (class_name : string)
    (attributes : string → option attribute) : Connector World :=
  {| hasattr := λ name,
       match attributes name with
       | Some _ => true
       | None => false
       end;
     call := λ name parameters w,
       match attributes name with
       | Some (Method body) => body parameters w
       | Some (DataAttribute v) =>
           (Raise (TypeError ("'" +:+ type_name v +:+ "' object is not callable")), w)
       | None =>
           (Raise (AttributeError ("'" +:+ class_name +:+ "' object has no attribute '"
                                   +:+ name +:+ "'")), w)
       end |}.

(** [name] is a capability: a method of the object. *)
Definition is_capability (attributes : string → option attribute) (name : string) : bool :=
  match attributes name with
  | Some (Method _) => true
  | _ => false
  end.
End ConnectorObjects.

(** The attributes [WeatherTool] defines itself: the two data attributes of
    [__init__] and its three methods, which here answer from the script.
    The names every object inherits are not listed. *)
Definition weather_attributes (name : string)
    : option (@attribute (list (result value))) :=
  let answer := λ (_ : list (string * value)) (w : list (result value)),
    match w with
    | [] => (Raise {| exn_class := "RuntimeError"; exn_str := "script exhausted" |}, [])
    | r :: rest => (r, rest)
    end in
  if String.eqb name "api_key" then Some (DataAttribute (VStr "w-key"))
  else if String.eqb name "base_url"
       then Some (DataAttribute (VStr "https://api.openweathermap.org/data/2.5"))
  else if String.eqb name "get_current_weather" then Some (Method answer)
  else if String.eqb name "get_weather_forecast" then Some (Method answer)
  else if String.eqb name "get_weather_by_coordinates" then Some (Method answer)
  else None.

Definition weather_object : Connector (list (result value)) :=
  object_connector "WeatherTool" weather_attributes.

Definition weather_object_agent : ExecutorAgent (list (result value)) :=
  {| github := scripted ["search_repositories"; "get_repository"; "get_user_repos"];
     weather := weather_object;
     news := scripted ["get_top_headlines"; "search_news"; "get_sources"];
     serp := scripted ["search"; "search_news"; "search_images"; "get_answer_box"] |}.

(** ** Further fixtures *)

(** A connector that gives the same answer to every call and leaves the
    world as it is. *)
Definition steady (names : list string) (answer : result value)
    : Connector (list (result value)) :=
  {| hasattr := λ name, bool_decide (name ∈ names);
     call := λ _ _ w, (answer, w) |}.

Definition steady_agent : ExecutorAgent (list (result value)) :=
  {| github := scripted ["search_repositories"];
     weather := steady ["get_current_weather"] (Ok sample_failure);
     news := scripted ["search_news"];
     serp := scripted ["search"; "get_answer_box"] |}.

(** The plan of the planner's prompt example, as the decoded JSON value. *)
Definition sample_plan_value : value :=
  VDict [("task_understanding", VStr "Get current weather for Paris");
         ("required_tools", VList [VStr "weather"]);
         ("steps",
          VList [VDict [("step_number", VInt 1);
                        ("action", VStr "Retrieve current weather for Paris");
                        ("tool", VStr "weather");
                        ("function", VStr "get_current_weather");
                        ("parameters", VDict [("city", VStr "Paris");
                                              ("units", VStr "metric")]);
                        ("reasoning", VStr "The user wants the current weather in Paris")]]);
         ("expected_output", VStr "Current weather details for Paris")].

Definition sample_environ : gmap string string :=
  <["NEBIUS_API_KEY" := "n-key"]>
  (<["GITHUB_API_KEY" := "g-key"]>
  (<["OPENWEATHER_API_KEY" := "w-key"]>
  (<["NEWS_API_KEY" := "news-key"]>
  (<["SERP_API_KEY" := "s-key"]> ∅)))).

(** * Properties *)

(** ** The embedding on concrete inputs *)

Example step_key_7 : step_key 7 = "step_7".
Proof. reflexivity. Qed.

Example str_of_nested_payload :
  py_str sample_repr (VDict [("a", VList [VInt 3; VStr "x"; VNone]); ("b", VFloat "3.1")])
  = "{'a': [3, 'x', None], 'b': 3.1}".
Proof. reflexivity. Qed.

Example characters_of_units : code_points "21°C" = ["2"; "1"; "°"; "C"].
Proof. reflexivity. Qed.

Example one_article_rendered :
  format_final_answer sample_repr "news about Tesla"
    (VDict [("articles",
             VList [VDict [("title", VStr "Model Y");
                           ("source", VDict [("id", VNone); ("name", VStr "Reuters")]);
                           ("url", VStr "https://example.org/y")]])])
  = Ok (join nl ["Here are the most recent Tesla-related news articles from the last month:";
                 EmptyString;
                 "1. Model Y";
                 "   Source: Reuters";
                 "   Published: Unknown date";
                 "   Link: https://example.org/y";
                 EmptyString]).
Proof. reflexivity. Qed.

Example iterating_a_number_raises :
  format_final_answer sample_repr "news about Tesla" (VDict [("articles", VInt 3)])
  = Raise (TypeError "'int' object is not iterable").
Proof. reflexivity. Qed.

Example failed_step_does_not_stop_the_plan :
  let '(r, env') :=
    execute_plan sample_agent
      (sample_plan [sample_step 1 "foo" "search"; sample_step 2 "weather" "get_current_weather"])
      (sample_env [Ok sample_weather]) in
  (match r with Ok r => map rec_status (steps_executed r) | Raise _ => [] end,
   length (log env'))
  = (["failed"; "success"], 1%nat).
Proof. reflexivity. Qed.

(** ** Payload tags *)

Lemma is_error_payload_spec (v : value) :
  is_error_payload v = true ↔ ∃ d msg, v = VDict d ∧ dict_get "error" d = Some msg.
Proof.
  split.
  - destruct v as [| | | | |items|d]; simpl; try discriminate.
    unfold dict_has. destruct (dict_get "error" d) as [msg|] eqn:E; [|discriminate].
    intros _. by exists d, msg.
  - intros (d & msg & -> & E). simpl. unfold dict_has. by rewrite E.
Qed.

Lemma error_payload_is_error (msg : string) : is_error_payload (error_payload msg) = true.
Proof. reflexivity. Qed.

(** ** The step executor *)

Section StepExecutor.
Context {World : Type}.
Implicit Types (self : ExecutorAgent World) (step : Step) (env : Env World)
  (t : Connector World).

Lemma tools_lookup_None self (name : string) :
  tools self !! name = None ↔
  name ≠ "github" ∧ name ≠ "weather" ∧ name ≠ "news" ∧ name ≠ "serp".
Proof.
  unfold tools. rewrite !lookup_insert_None, lookup_empty. intuition congruence.
Qed.

Lemma unresolved_tool_step self step env :
  tools self !! tool step = None →
  execute_step self step env
  = (Ok (error_payload ("Tool '" +:+ tool step +:+ "' not found")), env).
Proof. intros H. unfold execute_step. by rewrite H. Qed.

Lemma unresolved_function_step self step t env :
  tools self !! tool step = Some t →
  hasattr t (function step) = false →
  execute_step self step env
  = (Ok (error_payload ("Function '" +:+ function step +:+ "' not found in tool '"
                        +:+ tool step +:+ "'")), env).
Proof. intros Ht Hf. unfold execute_step. by rewrite Ht, Hf. Qed.

Lemma execute_step_first_raises self step t env e w1 :
  tools self !! tool step = Some t →
  hasattr t (function step) = true →
  call t (function step) (parameters step) (world env) = (Raise e, w1) →
  execute_step self step env
  = (Ok (execution_failed e), {| world := w1; log := log env ++ [invocation_of step] |}).
Proof.
  intros Ht Hf Hc. unfold execute_step. rewrite Ht, Hf. simpl.
  unfold try_except, mbind, M_bind, invoke. by rewrite Hc.
Qed.

Lemma execute_step_first_succeeds self step t env r1 w1 :
  tools self !! tool step = Some t →
  hasattr t (function step) = true →
  call t (function step) (parameters step) (world env) = (Ok r1, w1) →
  is_error_payload r1 = false →
  execute_step self step env
  = (Ok r1, {| world := w1; log := log env ++ [invocation_of step] |}).
Proof.
  intros Ht Hf Hc Hr. unfold execute_step. rewrite Ht, Hf. simpl.
  unfold try_except, mbind, M_bind, invoke. by rewrite Hc, Hr.
Qed.

Lemma execute_step_retries self step t env r1 w1 o2 w2 :
  tools self !! tool step = Some t →
  hasattr t (function step) = true →
  call t (function step) (parameters step) (world env) = (Ok r1, w1) →
  is_error_payload r1 = true →
  call t (function step) (parameters step) w1 = (o2, w2) →
  execute_step self step env
  = (Ok (match o2 with Ok r2 => r2 | Raise e => execution_failed e end),
     {| world := w2; log := log env ++ [invocation_of step; invocation_of step] |}).
Proof.
  intros Ht Hf Hc Hr Hc2. unfold execute_step. rewrite Ht, Hf. simpl.
  unfold try_except, mbind, M_bind, invoke. rewrite Hc, Hr. simpl. rewrite Hc2.
  rewrite <- app_assoc. by destruct o2.
Qed.

(** [execute_step] never raises: whatever the connectors do, it returns. *)
Lemma execute_step_returns self step env :
  ∃ v env', execute_step self step env = (Ok v, env').
Proof.
  destruct (tools self !! tool step) as [t|] eqn:Ht.
  - destruct (hasattr t (function step)) eqn:Hf.
    + destruct (call t (function step) (parameters step) (world env)) as [[r1|e] w1] eqn:Hc.
      * destruct (is_error_payload r1) eqn:Hr.
        -- destruct (call t (function step) (parameters step) w1) as [o2 w2] eqn:Hc2.
           eexists _, _. by eapply execute_step_retries.
        -- eexists _, _. by eapply execute_step_first_succeeds.
      * eexists _, _. by eapply execute_step_first_raises.
    + eexists _, _. by eapply unresolved_function_step.
  - eexists _, _. by apply unresolved_tool_step.
Qed.
End StepExecutor.

(** ** The plan executor *)

Section RecordAll.
Implicit Types (done : list (Step * value)) (results : ExecutionResult).

Lemma record_all_snoc done step outcome results :
  record_all (done ++ [(step, outcome)]) results
  = record_step step outcome (record_all done results).
Proof. unfold record_all. by rewrite fold_left_app. Qed.

Lemma record_step_appends step outcome results :
  steps_executed (record_step step outcome results)
  = steps_executed results ++ [step_record step outcome].
Proof.
  unfold record_step, step_record. simpl. by destruct (is_error_payload outcome).
Qed.

Lemma record_step_errors step outcome results :
  errors (record_step step outcome results)
  = errors results ++ option_list (error_entry (step_record step outcome)).
Proof.
  unfold record_step, error_entry, step_record. simpl.
  destruct outcome as [| | | | | |d]; simpl; try by rewrite app_nil_r.
  destruct (dict_get "error" d); simpl; [done | by rewrite app_nil_r].
Qed.

Lemma record_all_steps_executed done results :
  steps_executed (record_all done results)
  = steps_executed results ++ map (λ so, step_record (fst so) (snd so)) done.
Proof.
  revert results. induction done as [|[s o] done IH]; intros results; simpl.
  - by rewrite app_nil_r.
  - unfold record_all in *. simpl. rewrite IH, record_step_appends.
    by rewrite <- app_assoc.
Qed.

Lemma record_all_errors done results :
  errors (record_all done results)
  = errors results ++ omap (λ so, error_entry (step_record (fst so) (snd so))) done.
Proof.
  revert results. induction done as [|[s o] done IH]; intros results; simpl.
  - by rewrite app_nil_r.
  - unfold record_all in *. simpl. rewrite IH, record_step_errors. rewrite <- app_assoc.
    simpl. by destruct (error_entry (step_record s o)).
Qed.

Lemma record_all_final_data done results :
  final_data (record_all done results) = final_data results.
Proof.
  revert results. induction done as [|[s o] done IH]; intros results; [done|].
  unfold record_all in *. simpl. by rewrite IH.
Qed.

Lemma record_all_task done results :
  task (record_all done results) = task results.
Proof.
  revert results. induction done as [|[s o] done IH]; intros results; [done|].
  unfold record_all in *. simpl. by rewrite IH.
Qed.

(** The last write wins: after the loop the key of the last step holds the
    last step's outcome, whatever keys the earlier steps used. *)
Lemma record_all_raw_data_last done step outcome results :
  raw_data (record_all (done ++ [(step, outcome)]) results) !! step_key (step_number step)
  = Some outcome.
Proof. rewrite record_all_snoc. simpl. apply lookup_insert_eq. Qed.

Lemma record_all_raw_data_nonempty done results :
  done ≠ [] → raw_data (record_all done results) ≠ ∅.
Proof.
  destruct done as [|[s o] done' _] using rev_ind; [done|].
  intros _. rewrite record_all_snoc. simpl. apply insert_non_empty.
Qed.
End RecordAll.

Lemma error_entry_is_Some (r : StepRecord) :
  is_Some (error_entry r) ↔ is_error_payload (rec_result r) = true.
Proof.
  unfold error_entry. rewrite is_error_payload_spec. split.
  - destruct (rec_result r) as [| | | | | |d]; try by intros [? ?].
    destruct (dict_get "error" d) as [msg|] eqn:E; [|by intros [? ?]].
    intros _. by exists d, msg.
  - intros (d & msg & -> & ->). by eexists.
Qed.

Lemma step_record_status (step : Step) (outcome : value) :
  (rec_status (step_record step outcome) = "failed"
   ↔ is_error_payload (rec_result (step_record step outcome)) = true) ∧
  (rec_status (step_record step outcome) = "success"
   ↔ is_error_payload (rec_result (step_record step outcome)) = false).
Proof. simpl. by destruct (is_error_payload outcome). Qed.

Lemma count_error_entries (records : list StepRecord) :
  Forall (λ r, rec_status r = "failed" ↔ is_error_payload (rec_result r) = true) records →
  length (omap error_entry records)
  = length (filter (λ r, rec_status r = "failed") records).
Proof.
  induction 1 as [|r records Hr _ IH]; [done|].
  rewrite filter_cons. change (omap error_entry (r :: records))
    with (match error_entry r with
          | Some e => e :: omap error_entry records
          | None => omap error_entry records
          end).
  destruct (decide (rec_status r = "failed")) as [Hf|Hf].
  - apply Hr, error_entry_is_Some in Hf as [entry ->]. simpl. by f_equal.
  - destruct (error_entry r) as [entry|] eqn:E; [|done].
    exfalso. apply Hf, Hr, error_entry_is_Some. by rewrite E.
Qed.

Section PlanExecutor.
Context {World : Type}.
Implicit Types (self : ExecutorAgent World) (plan : Plan) (env : Env World).

(** The loop never stops early: it returns, having recorded the outcome of
    every step in order. *)
Lemma for_each_step_run self (steps : list Step) :
  ∀ results env, ∃ outcomes env',
    run_steps self steps env = (Ok outcomes, env') ∧
    length outcomes = length steps ∧
    for_each_step self steps results env
    = (Ok (record_all (zip steps outcomes) results), env').
Proof.
  induction steps as [|step rest IH]; intros results env.
  - by exists [], env.
  - destruct (execute_step_returns self step env) as (v & env1 & Hv).
    destruct (IH (record_step step v results) env1) as (outs & env' & Hrun & Hlen & Hloop).
    exists (v :: outs), env'. simpl. unfold mbind, M_bind.
    rewrite Hv, Hrun, Hloop. simpl. by rewrite Hlen.
Qed.

Lemma execute_plan_run self plan env :
  ∃ outcomes env',
    run_steps self (default [] (steps plan)) env = (Ok outcomes, env') ∧
    length outcomes = length (default [] (steps plan)) ∧
    execute_plan self plan env
    = (Ok (designate_final (default [] (steps plan))
             (record_all (zip (default [] (steps plan)) outcomes) (initial_results plan))),
       env').
Proof.
  destruct (for_each_step_run self (default [] (steps plan)) (initial_results plan) env)
    as (outs & env' & Hrun & Hlen & Hloop).
  exists outs, env'. repeat split; [done..|].
  unfold execute_plan, mbind, M_bind. fold (initial_results plan). by rewrite Hloop.
Qed.
End PlanExecutor.

Lemma designate_final_keeps (steps : list Step) (results : ExecutionResult) :
  task (designate_final steps results) = task results ∧
  steps_executed (designate_final steps results) = steps_executed results ∧
  errors (designate_final steps results) = errors results ∧
  raw_data (designate_final steps results) = raw_data results.
Proof.
  unfold designate_final.
  destruct (errors results) eqn:He; [|by rewrite He].
  case_bool_decide; [|by rewrite He].
  destruct (last steps); simpl; by rewrite ?He.
Qed.

Lemma designate_final_sets (steps : list Step) (results : ExecutionResult) :
  final_data results = None →
  is_Some (final_data (designate_final steps results))
  ↔ errors results = [] ∧ raw_data results ≠ ∅ ∧ steps ≠ [].
Proof.
  intros Hnone. unfold designate_final.
  destruct (errors results) as [|e es] eqn:He.
  - case_bool_decide as Hraw.
    + destruct (last steps) as [s|] eqn:Hlast; simpl.
      * split; [|by eauto]. intros _. repeat split; [done|]. by intros ->.
      * rewrite Hnone. apply last_None in Hlast as ->.
        split; [by intros [? ?] | by intros (_ & _ & ?)].
    + rewrite Hnone. split; [by intros [? ?] | by intros (_ & ? & _)].
  - rewrite Hnone. split; [by intros [? ?] | by intros (? & _ & _)].
Qed.

Lemma designate_final_value (steps : list Step) (results : ExecutionResult) (v : value) :
  final_data results = None →
  final_data (designate_final steps results) = Some v →
  ∃ last_step, last steps = Some last_step ∧
    v = default VNone (raw_data results !! step_key (step_number last_step)).
Proof.
  intros Hnone. unfold designate_final.
  destruct (errors results); [|by rewrite Hnone].
  case_bool_decide; [|by rewrite Hnone].
  destruct (last steps) as [s|]; [|by rewrite Hnone].
  simpl. intros [= <-]. by exists s.
Qed.

(** ** Claims about the step executor *)

(** C7, as the code has it.  A step whose tool name is not a key of the
    registry (such as "foo") yields [{"error": "Tool '<tool>' not found"}],
    and a step whose tool resolves but whose function name is no attribute
    of the connector ([hasattr] is false) yields
    [{"error": "Function '<function>' not found in tool '<tool>'"}]; in both
    cases no call is made: the environment (world and call log) is returned
    unchanged, and for an unregistered name the answer is the same for every
    choice of connectors.  The test is on attributes, not on capabilities: a
    name that is a data attribute of the connector object passes it, the
    call of the value raises [TypeError] without running anything, and the
    step yields the "Execution failed" payload naming the value's type as
    not callable. *)
Theorem execute_step_unresolved {World : Type} (self : ExecutorAgent World)
    (step : Step) (env : Env World) :
  (tools self !! tool step = None →
   ∀ self' : ExecutorAgent World,
     execute_step self' step env
     = (Ok (VDict [("error", VStr ("Tool '" +:+ tool step +:+ "' not found"))]), env)) ∧
  (tool step = "foo" →
   execute_step self step env
   = (Ok (VDict [("error", VStr "Tool 'foo' not found")]), env)) ∧
  (∀ t, tools self !! tool step = Some t →
     hasattr t (function step) = false →
     execute_step self step env
     = (Ok (VDict [("error", VStr ("Function '" +:+ function step
                                   +:+ "' not found in tool '" +:+ tool step +:+ "'"))]),
        env)) ∧
  (∀ (class_name : string) (attributes : string → option attribute) (v : value),
     tools self !! tool step = Some (object_connector class_name attributes) →
     attributes (function step) = Some (DataAttribute v) →
     is_capability attributes (function step) = false ∧
     execute_step self step env
     = (Ok (VDict [("error", VStr ("Execution failed: '" +:+ type_name v
                                   +:+ "' object is not callable"))]),
        {| world := world env; log := log env ++ [invocation_of step] |})).
Proof.
  split; [|split; [|split]].
  - intros Hnone self'. apply unresolved_tool_step.
    apply tools_lookup_None. by apply (tools_lookup_None self).
  - intros Hfoo.
    assert (tools self !! tool step = None) as Hnone
      by (apply tools_lookup_None; rewrite Hfoo; by repeat split).
    rewrite (unresolved_tool_step self step env Hnone). by rewrite Hfoo.
  - intros t Ht Hf. by apply unresolved_function_step with t.
  - intros class_name attributes v Ht Hattr. split.
    + unfold is_capability. by rewrite Hattr.
    + apply (execute_step_first_raises self step _ env
               (TypeError ("'" +:+ type_name v +:+ "' object is not callable"))
               (world env) Ht).
      * simpl. by rewrite Hattr.
      * simpl. by rewrite Hattr.
Qed.

Lemma execute_step_unresolved_witness :
  execute_step sample_agent (sample_step 1 "foo" "get_current_weather")
    (sample_env [Ok sample_weather])
  = (Ok (VDict [("error", VStr "Tool 'foo' not found")]), sample_env [Ok sample_weather])
  ∧
  execute_step sample_agent (sample_step 1 "weather" "get_tides")
    (sample_env [Ok sample_weather])
  = (Ok (VDict [("error", VStr "Function 'get_tides' not found in tool 'weather'")]),
     sample_env [Ok sample_weather]).
Proof.
  split.
  - destruct (execute_step_unresolved sample_agent
                (sample_step 1 "foo" "get_current_weather")
                (sample_env [Ok sample_weather])) as (_ & Hfoo & _).
    apply Hfoo. reflexivity.
  - destruct (execute_step_unresolved sample_agent
                (sample_step 1 "weather" "get_tides")
                (sample_env [Ok sample_weather])) as (_ & _ & Hfun & _).
    apply (Hfun (weather sample_agent)); vm_compute; reflexivity.
Defined.

(** C7 as stated fails: "base_url" is no capability of the weather
    connector, yet the step is not answered with "Function 'base_url' not
    found in tool 'weather'": the attribute exists, its call raises, and the
    step yields the "Execution failed" payload. *)
Lemma data_attribute_is_not_reported_missing :
  tools weather_object_agent !! "weather" = Some weather_object ∧
  is_capability weather_attributes "base_url" = false ∧
  execute_step weather_object_agent (sample_step 1 "weather" "base_url")
    (sample_env [Ok sample_weather])
  = (Ok (VDict [("error", VStr "Execution failed: 'str' object is not callable")]),
     {| world := [Ok sample_weather];
        log := [invocation_of (sample_step 1 "weather" "base_url")] |}) ∧
  fst (execute_step weather_object_agent (sample_step 1 "weather" "base_url")
         (sample_env [Ok sample_weather]))
  ≠ Ok (VDict [("error", VStr "Function 'base_url' not found in tool 'weather'")]).
Proof.
  split; [reflexivity|]. split; [reflexivity|]. split; [reflexivity|].
  vm_compute. discriminate.
Qed.

(** C3. Once tool and function resolve, the capability is called with the
    step's parameters.  If that first call returns an error payload (a
    dictionary holding "error"), and only then, it is called exactly once
    more with the same parameters, and what the second call returns is the
    outcome, error payload or not.  A first call that raises is turned into
    [{"error": "Execution failed: <message>"}] after that single call, and a
    first result that is no error payload is returned after that single
    call. *)
Theorem execute_step_retry_policy {World : Type} (self : ExecutorAgent World)
    (step : Step) (t : Connector World) (env : Env World)
    (o1 o2 : result value) (w1 w2 : World) :
  tools self !! tool step = Some t →
  hasattr t (function step) = true →
  call t (function step) (parameters step) (world env) = (o1, w1) →
  call t (function step) (parameters step) w1 = (o2, w2) →
  (∀ r1, o1 = Ok r1 → is_error_payload r1 = true →
     snd (execute_step self step env)
     = {| world := w2; log := log env ++ [invocation_of step; invocation_of step] |} ∧
     ∀ r2, o2 = Ok r2 → fst (execute_step self step env) = Ok r2) ∧
  (∀ r1, o1 = Ok r1 → is_error_payload r1 = false →
     execute_step self step env
     = (Ok r1, {| world := w1; log := log env ++ [invocation_of step] |})) ∧
  (∀ e, o1 = Raise e →
     execute_step self step env
     = (Ok (VDict [("error", VStr ("Execution failed: " +:+ exn_str e))]),
        {| world := w1; log := log env ++ [invocation_of step] |})) ∧
  (length (log (snd (execute_step self step env))) = (length (log env) + 2)%nat
   ↔ ∃ r1, o1 = Ok r1 ∧ is_error_payload r1 = true) ∧
  (length (log (snd (execute_step self step env))) = (length (log env) + 1)%nat
   ↔ ¬ ∃ r1, o1 = Ok r1 ∧ is_error_payload r1 = true).
Proof.
  intros Ht Hf Hc1 Hc2.
  assert (∀ r1, o1 = Ok r1 → is_error_payload r1 = true →
          execute_step self step env
          = (Ok (match o2 with Ok r2 => r2 | Raise e => execution_failed e end),
             {| world := w2;
                log := log env ++ [invocation_of step; invocation_of step] |})) as Hretry.
  { intros r1 -> Hr. by eapply execute_step_retries. }
  assert (∀ r1, o1 = Ok r1 → is_error_payload r1 = false →
          execute_step self step env
          = (Ok r1, {| world := w1; log := log env ++ [invocation_of step] |})) as Honce.
  { intros r1 -> Hr. by eapply execute_step_first_succeeds. }
  assert (∀ e, o1 = Raise e →
          execute_step self step env
          = (Ok (execution_failed e),
             {| world := w1; log := log env ++ [invocation_of step] |})) as Hraise.
  { intros e ->. by eapply execute_step_first_raises. }
  repeat split.
  - by rewrite (Hretry r1).
  - intros r2 ->. by rewrite (Hretry r1).
  - done.
  - done.
  - destruct o1 as [r1|e].
    + destruct (is_error_payload r1) eqn:Hr; [by eauto|].
      rewrite (Honce r1 eq_refl Hr). simpl. rewrite length_app. simpl. lia.
    + rewrite (Hraise e eq_refl). simpl. rewrite length_app. simpl. lia.
  - intros (r1 & -> & Hr). rewrite (Hretry r1 eq_refl Hr). simpl.
    rewrite length_app. simpl. lia.
  - intros Hlen (r1 & -> & Hr). rewrite (Hretry r1 eq_refl Hr) in Hlen. simpl in Hlen.
    rewrite length_app in Hlen. simpl in Hlen. lia.
  - intros Hno. destruct o1 as [r1|e].
    + destruct (is_error_payload r1) eqn:Hr; [exfalso; by eauto|].
      rewrite (Honce r1 eq_refl Hr). simpl. rewrite length_app. simpl. lia.
    + rewrite (Hraise e eq_refl). simpl. rewrite length_app. simpl. lia.
Qed.

Lemma execute_step_retry_policy_witness :
  execute_step sample_agent (sample_step 1 "weather" "get_current_weather")
    (sample_env [Ok sample_failure; Ok sample_weather; Ok VNone])
  = (Ok sample_weather,
     {| world := [Ok VNone];
        log := [invocation_of (sample_step 1 "weather" "get_current_weather");
                invocation_of (sample_step 1 "weather" "get_current_weather")] |}).
Proof.
  destruct (execute_step_retry_policy sample_agent
              (sample_step 1 "weather" "get_current_weather")
              (weather sample_agent)
              (sample_env [Ok sample_failure; Ok sample_weather; Ok VNone])
              (Ok sample_failure) (Ok sample_weather)
              [Ok sample_weather; Ok VNone] [Ok VNone]
              eq_refl eq_refl eq_refl eq_refl) as (Hretry & _).
  destruct (Hretry sample_failure eq_refl eq_refl) as (Henv & Hres).
  specialize (Hres sample_weather eq_refl).
  destruct (execute_step sample_agent _ _) as [o env']. simpl in *. by subst.
Defined.

(** C10. When the first call returns an error payload and the retry raises
    an exception whose message is [m], the outcome of the step is
    [{"error": "Execution failed: <m>"}]: the first payload is dropped and
    the retry's exception goes through the same handler as a first-call
    exception.  Whatever the two calls do, [execute_step] returns a value
    and raises nothing. *)
Theorem execute_step_retry_raises {World : Type} (self : ExecutorAgent World)
    (step : Step) (env : Env World) :
  (∃ v env', execute_step self step env = (Ok v, env')) ∧
  (∀ (t : Connector World) (r1 : value) (w1 w2 : World) (e : exn),
     tools self !! tool step = Some t →
     hasattr t (function step) = true →
     call t (function step) (parameters step) (world env) = (Ok r1, w1) →
     is_error_payload r1 = true →
     call t (function step) (parameters step) w1 = (Raise e, w2) →
     execute_step self step env
     = (Ok (VDict [("error", VStr ("Execution failed: " +:+ exn_str e))]),
        {| world := w2; log := log env ++ [invocation_of step; invocation_of step] |})) ∧
  (∀ (t : Connector World) (w1 : World) (e : exn),
     tools self !! tool step = Some t →
     hasattr t (function step) = true →
     call t (function step) (parameters step) (world env) = (Raise e, w1) →
     execute_step self step env
     = (Ok (VDict [("error", VStr ("Execution failed: " +:+ exn_str e))]),
        {| world := w1; log := log env ++ [invocation_of step] |})).
Proof.
  split; [apply execute_step_returns|]. split.
  - intros t r1 w1 w2 e Ht Hf Hc1 Hr Hc2.
    by rewrite (execute_step_retries self step t env r1 w1 (Raise e) w2).
  - intros t w1 e Ht Hf Hc1. by eapply execute_step_first_raises.
Qed.

Lemma execute_step_retry_raises_witness :
  execute_step sample_agent (sample_step 1 "weather" "get_current_weather")
    (sample_env [Ok sample_failure;
                 Raise {| exn_class := "KeyError"; exn_str := "'main'" |}])
  = (Ok (VDict [("error", VStr "Execution failed: 'main'")]),
     {| world := [];
        log := [invocation_of (sample_step 1 "weather" "get_current_weather");
                invocation_of (sample_step 1 "weather" "get_current_weather")] |}).
Proof.
  destruct (execute_step_retry_raises sample_agent
              (sample_step 1 "weather" "get_current_weather")
              (sample_env [Ok sample_failure;
                           Raise {| exn_class := "KeyError"; exn_str := "'main'" |}]))
    as (_ & Hretry & _).
  apply (Hretry (weather sample_agent) sample_failure
           [Raise {| exn_class := "KeyError"; exn_str := "'main'" |}] []
           {| exn_class := "KeyError"; exn_str := "'main'" |});
    reflexivity.
Defined.

(** ** Claims about the plan executor *)

Lemma omap_error_entry_map (done : list (Step * value)) :
  omap (λ so, error_entry (step_record (fst so) (snd so))) done
  = omap error_entry (map (λ so, step_record (fst so) (snd so)) done).
Proof.
  induction done as [|so done IH]; [done|]. simpl.
  destruct (error_entry _); [f_equal|]; exact IH.
Qed.

Lemma no_error_entries (records : list StepRecord) :
  Forall (λ r, is_error_payload (rec_result r) = false) records →
  omap error_entry records = [].
Proof.
  induction 1 as [|r records Hr _ IH]; [done|]. simpl.
  destruct (error_entry r) as [entry|] eqn:E; [|exact IH].
  assert (is_error_payload (rec_result r) = true)
    by (apply error_entry_is_Some; by rewrite E).
  congruence.
Qed.

Lemma zip_snoc (steps : list Step) (outcomes : list value) (last_step : Step) :
  length outcomes = S (length steps) →
  ∃ outcomes' outcome,
    outcomes = outcomes' ++ [outcome] ∧
    zip (steps ++ [last_step]) outcomes = zip steps outcomes' ++ [(last_step, outcome)].
Proof.
  intros Hlen. destruct outcomes as [|o outcomes _] using rev_ind; [done|].
  rewrite length_app in Hlen. simpl in Hlen.
  exists outcomes, o. split; [done|].
  rewrite zip_with_app by lia. done.
Qed.

(** After the loop, the key of the last step holds the outcome recorded
    last. *)
Lemma record_all_last (steps : list Step) (outcomes : list value)
    (results : ExecutionResult) (last_step : Step) :
  length outcomes = length steps →
  last steps = Some last_step →
  ∃ outcome,
    last outcomes = Some outcome ∧
    raw_data (record_all (zip steps outcomes) results) !! step_key (step_number last_step)
    = Some outcome ∧
    last (steps_executed (record_all (zip steps outcomes) results))
    = Some (step_record last_step outcome).
Proof.
  intros Hlen Hlast.
  destruct steps as [|s steps _] using rev_ind; [done|].
  rewrite last_snoc in Hlast. injection Hlast as ->.
  rewrite length_app in Hlen. simpl in Hlen.
  destruct (zip_snoc steps outcomes last_step) as (outs & o & -> & Hzip); [lia|].
  exists o. rewrite Hzip. split; [apply last_snoc|]. split.
  - apply record_all_raw_data_last.
  - rewrite record_all_snoc, record_step_appends. apply last_snoc.
Qed.

Lemma map_zip_fst {A B C : Type} (f : A → C) (l : list A) (k : list B) :
  length k = length l → map (λ p, f (fst p)) (zip l k) = map f l.
Proof.
  revert k. induction l as [|a l IH]; intros [|b k] Hlen; simpl in *; try done.
  f_equal. apply IH. lia.
Qed.

Lemma map_zip_snd {A B : Type} (l : list A) (k : list B) :
  length k = length l → map snd (zip l k) = k.
Proof.
  revert k. induction l as [|a l IH]; intros [|b k] Hlen; simpl in *; try done.
  f_equal. apply IH. lia.
Qed.

Section PlanClaims.
Context {World : Type}.
Implicit Types (self : ExecutorAgent World) (plan : Plan) (env : Env World).

(** What [execute_plan] returns, in terms of the outcomes of its steps. *)
Lemma execute_plan_records self plan env :
  ∃ outcomes r env',
    run_steps self (default [] (steps plan)) env = (Ok outcomes, env') ∧
    length outcomes = length (default [] (steps plan)) ∧
    execute_plan self plan env = (Ok r, env') ∧
    r = designate_final (default [] (steps plan))
          (record_all (zip (default [] (steps plan)) outcomes) (initial_results plan)) ∧
    steps_executed r
    = map (λ so, step_record (fst so) (snd so)) (zip (default [] (steps plan)) outcomes) ∧
    errors r = omap error_entry (steps_executed r).
Proof.
  destruct (execute_plan_run self plan env) as (outs & env' & Hrun & Hlen & Hplan).
  eexists outs, _, env'. repeat split; [done..| |].
  - destruct (designate_final_keeps (default [] (steps plan))
               (record_all (zip (default [] (steps plan)) outs) (initial_results plan)))
      as (_ & -> & _ & _).
    by rewrite record_all_steps_executed.
  - destruct (designate_final_keeps (default [] (steps plan))
               (record_all (zip (default [] (steps plan)) outs) (initial_results plan)))
      as (_ & -> & -> & _).
    rewrite record_all_steps_executed, record_all_errors. simpl.
    apply omap_error_entry_map.
Qed.

(** C4. [execute_plan] runs every step of the plan, in order, whatever
    happened to the earlier ones: [steps_executed] holds exactly one record
    per step, in plan order, carrying the step's labels and its outcome; the
    status is "failed" exactly when the outcome is a dictionary holding
    "error" and "success" otherwise; [errors] holds exactly one entry
    [{step: step_number, error: message}] per such outcome, in order, so
    that there are as many entries as "failed" records. *)
Theorem execute_plan_runs_every_step self plan env :
  ∃ outcomes r env',
    run_steps self (default [] (steps plan)) env = (Ok outcomes, env') ∧
    execute_plan self plan env = (Ok r, env') ∧
    length (steps_executed r) = length (default [] (steps plan)) ∧
    map rec_step_number (steps_executed r) = map step_number (default [] (steps plan)) ∧
    map rec_action (steps_executed r) = map action (default [] (steps plan)) ∧
    map rec_tool (steps_executed r) = map tool (default [] (steps plan)) ∧
    map rec_function (steps_executed r) = map function (default [] (steps plan)) ∧
    map rec_result (steps_executed r) = outcomes ∧
    Forall (λ rec,
              (rec_status rec = "failed" ↔ is_error_payload (rec_result rec) = true) ∧
              (rec_status rec = "success" ↔ is_error_payload (rec_result rec) = false))
           (steps_executed r) ∧
    errors r = omap error_entry (steps_executed r) ∧
    length (errors r)
    = length (filter (λ rec, rec_status rec = "failed") (steps_executed r)).
Proof.
  destruct (execute_plan_records self plan env)
    as (outs & r & env' & Hrun & Hlen & Hplan & _ & Hrecs & Herrs).
  assert (Forall (λ rec,
              (rec_status rec = "failed" ↔ is_error_payload (rec_result rec) = true) ∧
              (rec_status rec = "success" ↔ is_error_payload (rec_result rec) = false))
           (steps_executed r)) as Hstatus.
  { rewrite Hrecs. clear.
    induction (zip (default [] (steps plan)) outs) as [|[s o] done IH]; simpl.
    - constructor.
    - constructor; [apply step_record_status | exact IH]. }
  exists outs, r, env'. split; [done|]. split; [done|].
  rewrite Hrecs at 1 2 3 4 5 6. rewrite !map_map. simpl.
  split; [by rewrite length_map, length_zip_with, Hlen, Nat.min_id|].
  split; [by apply (map_zip_fst step_number)|].
  split; [by apply (map_zip_fst action)|].
  split; [by apply (map_zip_fst tool)|].
  split; [by apply (map_zip_fst function)|].
  split; [by apply map_zip_snd|].
  split; [done|]. split; [done|].
  rewrite Herrs. apply count_error_entries.
  eapply Forall_impl; [exact Hstatus|]. by intros rec [? _].
Qed.

(** C1. [execute_plan] sets [final_data] exactly when the collected errors
    are empty, [raw_data] is not empty and the plan had at least one step.
    When set, [final_data] is the [raw_data] entry under "step_" followed by
    the last step's number, which is the outcome of the last step in plan
    order (the last record), also when earlier steps bear the same number.
    In particular, for a plan of two steps none of whose outcomes is an error
    payload, [errors] is empty and [final_data] is the [raw_data] entry of
    the second step. *)
Theorem execute_plan_final_data self plan env :
  ∃ r env',
    execute_plan self plan env = (Ok r, env') ∧
    (is_Some (final_data r)
     ↔ errors r = [] ∧ raw_data r ≠ ∅ ∧ default [] (steps plan) ≠ []) ∧
    (∀ v, final_data r = Some v →
       ∃ last_step last_record,
         last (default [] (steps plan)) = Some last_step ∧
         raw_data r !! ("step_" +:+ pretty (step_number last_step)) = Some v ∧
         last (steps_executed r) = Some last_record ∧
         rec_step_number last_record = step_number last_step ∧
         rec_result last_record = v) ∧
    (∀ s1 s2, default [] (steps plan) = [s1; s2] →
       Forall (λ rec, is_error_payload (rec_result rec) = false) (steps_executed r) →
       errors r = [] ∧
       is_Some (final_data r) ∧
       final_data r = raw_data r !! ("step_" +:+ pretty (step_number s2))).
Proof.
  destruct (execute_plan_records self plan env)
    as (outs & r & env' & Hrun & Hlen & Hplan & Hr & Hrecs & Herrs).
  set (steps := default [] (steps plan)) in *.
  set (looped := record_all (zip steps outs) (initial_results plan)) in *.
  assert (final_data looped = None) as Hnone
    by (unfold looped; by rewrite record_all_final_data).
  destruct (designate_final_keeps steps looped) as (_ & Hkeep_recs & Hkeep_errs & Hkeep_raw).
  rewrite <- Hr in Hkeep_recs, Hkeep_errs, Hkeep_raw.
  assert (is_Some (final_data r)
          ↔ errors r = [] ∧ raw_data r ≠ ∅ ∧ steps ≠ []) as Hiff.
  { rewrite Hr at 1. rewrite (designate_final_sets steps looped Hnone).
    by rewrite Hkeep_errs, Hkeep_raw. }
  assert (∀ v, final_data r = Some v →
            ∃ last_step last_record,
              last steps = Some last_step ∧
              raw_data r !! step_key (step_number last_step) = Some v ∧
              last (steps_executed r) = Some last_record ∧
              rec_step_number last_record = step_number last_step ∧
              rec_result last_record = v) as Hvalue.
  { intros v Hv. rewrite Hr in Hv.
    destruct (designate_final_value steps looped v Hnone Hv) as (last_step & Hlast & Hdef).
    destruct (record_all_last steps outs (initial_results plan) last_step Hlen Hlast)
      as (o & _ & Hraw & Hrec).
    fold looped in Hraw, Hrec. rewrite Hraw in Hdef. simpl in Hdef. subst v.
    exists last_step, (step_record last_step o).
    by rewrite Hkeep_raw, Hkeep_recs. }
  exists r, env'. split; [done|]. split; [done|]. split; [done|].
  intros s1 s2 Hsteps Hok.
  assert (errors r = []) as Hnoerr by (rewrite Herrs; by apply no_error_entries).
  assert (is_Some (final_data r)) as [v Hv].
  { apply Hiff. split; [done|]. split; [|by rewrite Hsteps].
    rewrite Hkeep_raw. apply record_all_raw_data_nonempty.
    rewrite Hsteps in *. by destruct outs as [|? [|? ?]]. }
  split; [done|]. split; [by eexists|].
  destruct (Hvalue v Hv) as (last_step & _ & Hlast & Hraw & _).
  rewrite Hsteps in Hlast. simpl in Hlast. injection Hlast as <-.
  unfold step_key in Hraw. by rewrite Hraw.
Qed.

End PlanClaims.

Lemma execute_plan_final_data_witness :
  ∃ r env',
    execute_plan sample_agent
      (sample_plan [sample_step 1 "github" "search_repositories";
                    sample_step 1 "weather" "get_current_weather"])
      (sample_env [Ok (VList []); Ok sample_weather])
    = (Ok r, env') ∧
    errors r = [] ∧
    final_data r = Some sample_weather ∧
    raw_data r !! "step_1" = Some sample_weather.
Proof.
  destruct (execute_plan_final_data sample_agent
              (sample_plan [sample_step 1 "github" "search_repositories";
                            sample_step 1 "weather" "get_current_weather"])
              (sample_env [Ok (VList []); Ok sample_weather]))
    as (r & env' & Hplan & _ & _ & Htwo).
  exists r, env'. split; [exact Hplan|].
  vm_compute in Hplan. injection Hplan as <- <-.
  destruct (Htwo (sample_step 1 "github" "search_repositories")
                 (sample_step 1 "weather" "get_current_weather") eq_refl)
    as (Herr & _ & Hfinal).
  { repeat constructor. }
  split; [exact Herr|]. split; [|reflexivity].
  rewrite Hfinal. reflexivity.
Defined.

(** ** Claims about the verifier *)

Lemma string_app_assoc (a b c : string) : (a +:+ b) +:+ c = a +:+ (b +:+ c).
Proof. induction a as [|x a IH]; [done | exact (f_equal (String x) IH)]. Qed.

Lemma dict_get_nonempty (k : string) (d : list (string * value)) (v : value) :
  dict_get k d = Some v → truthy (VDict d) = true.
Proof. by destruct d. Qed.

Section VerifierClaims.
Variable repr_str : string → string.
Implicit Types (task : string) (r : ExecutionResult) (plan : Plan).

(** C5. Whenever [errors] is not empty, [verify_results] returns the
    Incomplete shape with [is_complete = false], [confidence = "low"] and
    [issues_found = ["Execution errors occurred"]], whatever [final_data]
    is: the test comes before the one on missing data. *)
Theorem verify_results_execution_errors task r plan :
  errors r ≠ [] →
  verify_results repr_str task r plan
  = Ok {| is_complete := false;
          confidence := "low";
          final_answer := "Unable to fully complete the task: Execution errors occurred.";
          issues_found := ["Execution errors occurred"];
          missing_data := [];
          suggestions := [];
          raw_results := Some r |}.
Proof.
  intros Herr. unfold verify_results. by destruct (errors r).
Qed.

(** C8. With no errors and a [final_data] dictionary whose "articles" entry
    is the empty list, [verify_results] returns the Complete shape with
    [final_answer = "No relevant news articles were found."]. *)
Theorem verify_results_no_articles task r plan (d : list (string * value)) :
  errors r = [] →
  final_data r = Some (VDict d) →
  dict_get "articles" d = Some (VList []) →
  verify_results repr_str task r plan
  = Ok {| is_complete := true;
          confidence := "high";
          final_answer := "No relevant news articles were found.";
          issues_found := [];
          missing_data := [];
          suggestions := [];
          raw_results := None |}.
Proof.
  intros Herr Hfinal Harticles. unfold verify_results. rewrite Herr, Hfinal. simpl default.
  rewrite (dict_get_nonempty _ _ _ Harticles). simpl.
  by rewrite Harticles.
Qed.

(** C9. For a dictionary that holds "temperature" and not "articles" the
    rendering is the title line followed by four lines: temperature and
    units, condition, humidity in percent, wind speed in m/s; this is the
    [final_answer] of [verify_results] when there are no errors.  For the
    payload [{"temperature": 21, "units": "°C", "description": "clear sky",
    "humidity": 40, "wind_speed": 3.1}] the lines are "Temperature: 21 °C",
    "Condition: clear sky", "Humidity: 40%" and "Wind Speed: 3.1 m/s". *)
Theorem weather_report_lines task (d : list (string * value)) :
  dict_has "temperature" d = true →
  dict_has "articles" d = false →
  let field k := py_str repr_str (default VNone (dict_get k d)) in
  let report :=
    join nl ["Current Weather Report:";
             "Temperature: " +:+ field "temperature" +:+ " " +:+ field "units";
             "Condition: " +:+ field "description";
             "Humidity: " +:+ field "humidity" +:+ "%";
             "Wind Speed: " +:+ field "wind_speed" +:+ " m/s"] in
  format_final_answer repr_str task (VDict d) = Ok report ∧
  (∀ r plan, errors r = [] → final_data r = Some (VDict d) →
     verify_results repr_str task r plan
     = Ok {| is_complete := true; confidence := "high"; final_answer := report;
             issues_found := []; missing_data := []; suggestions := [];
             raw_results := None |}) ∧
  format_final_answer repr_str task
    (VDict [("temperature", VInt 21); ("units", VStr "°C");
            ("description", VStr "clear sky"); ("humidity", VInt 40);
            ("wind_speed", VFloat "3.1")])
  = Ok (join nl ["Current Weather Report:"; "Temperature: 21 °C"; "Condition: clear sky";
                 "Humidity: 40%"; "Wind Speed: 3.1 m/s"]).
Proof.
  intros Htemp Hart field report.
  assert (format_final_answer repr_str task (VDict d) = Ok report) as Hfmt.
  { unfold format_final_answer, dict_has in *.
    destruct (dict_get "articles" d); [discriminate|].
    destruct (dict_get "temperature" d); [|discriminate].
    f_equal. unfold weather_report, report, field. simpl.
    by rewrite !string_app_assoc. }
  split; [done|]. split; [|reflexivity].
  intros r plan Herr Hfinal. unfold verify_results. rewrite Herr, Hfinal. simpl default.
  assert (truthy (VDict d) = true) as ->.
  { unfold dict_has in Htemp. destruct (dict_get "temperature" d) eqn:E; [|discriminate].
    by eapply dict_get_nonempty. }
  simpl negb. cbv iota. by rewrite Hfmt.
Qed.
End VerifierClaims.

Lemma verify_results_execution_errors_witness :
  verify_results sample_repr "weather in Paris"
    (sample_results [ {| err_step := 1; err_error := VStr "Tool 'foo' not found" |} ]
                    (Some sample_weather))
    (sample_plan [])
  = Ok (incomplete "Execution errors occurred"
          (sample_results [ {| err_step := 1; err_error := VStr "Tool 'foo' not found" |} ]
                          (Some sample_weather))
          "low").
Proof.
  apply (verify_results_execution_errors sample_repr "weather in Paris"
           (sample_results [ {| err_step := 1; err_error := VStr "Tool 'foo' not found" |} ]
                           (Some sample_weather))
           (sample_plan [])).
  simpl. discriminate.
Defined.

Lemma verify_results_no_articles_witness :
  final_answer <$> (match verify_results sample_repr "news about Tesla"
                            (sample_results [] (Some (VDict [("articles", VList [])])))
                            (sample_plan []) with
                    | Ok vr => Some vr
                    | Raise _ => None
                    end)
  = Some "No relevant news articles were found.".
Proof.
  rewrite (verify_results_no_articles sample_repr "news about Tesla"
             (sample_results [] (Some (VDict [("articles", VList [])])))
             (sample_plan []) [("articles", VList [])] eq_refl eq_refl eq_refl).
  reflexivity.
Defined.

Lemma weather_report_lines_witness :
  format_final_answer sample_repr "weather in Paris" sample_weather
  = Ok (join nl ["Current Weather Report:"; "Temperature: 21 °C"; "Condition: clear sky";
                 "Humidity: 40%"; "Wind Speed: 3.1 m/s"]).
Proof.
  destruct (weather_report_lines sample_repr "weather in Paris"
              [("temperature", VInt 21); ("units", VStr "°C");
               ("description", VStr "clear sky"); ("humidity", VInt 40);
               ("wind_speed", VFloat "3.1")] eq_refl eq_refl) as (Hfmt & _ & _).
  exact Hfmt.
Defined.

(** ** When the news rendering raises *)

Lemma code_points_nonempty (c : ascii) (rest : string) : code_points (String c rest) ≠ [].
Proof.
  simpl. destruct rest as [|c' rest']; [done|].
  destruct (is_continuation c'); [|done].
  by destruct (code_points (String c' rest')).
Qed.

Section Rendering.
Variable repr_str : string → string.

Lemma format_article_printable (i : Z) (article : value) :
  printable_article article = true →
  ∃ line, format_article repr_str i article = Ok line.
Proof.
  destruct article as [| | | | | |d]; try discriminate. simpl.
  unfold format_article. simpl.
  destruct (dict_get "source" d) as [[| | | | | |src]|]; try discriminate;
    intros _; simpl; by eexists.
Qed.

Lemma format_article_unprintable (i : Z) (article : value) :
  printable_article article = false →
  ∃ msg, format_article repr_str i article = Raise (AttributeError msg).
Proof.
  destruct article as [| | | | | |d]; try (intros _; by eexists).
  unfold format_article. simpl.
  destruct (dict_get "source" d) as [[| | | | | |src]|]; try discriminate;
    intros _; simpl; by eexists.
Qed.

Lemma format_articles_printable (items : list value) :
  forallb printable_article items = true →
  ∀ i lines, ∃ out, format_articles repr_str i items lines = Ok out.
Proof.
  induction items as [|a items IH]; intros Hall i lines; simpl in *.
  - by eexists.
  - apply andb_prop in Hall as [Ha Hrest].
    destruct (format_article_printable i a Ha) as [line ->]. simpl.
    by apply IH.
Qed.

Lemma format_articles_unprintable (items : list value) :
  forallb printable_article items = false →
  ∀ i lines, ∃ msg, format_articles repr_str i items lines = Raise (AttributeError msg).
Proof.
  induction items as [|a items IH]; intros Hall i lines; simpl in *; [discriminate|].
  destruct (printable_article a) eqn:Ha.
  - destruct (format_article_printable i a Ha) as [line ->]. simpl. by apply IH.
  - destruct (format_article_unprintable i a Ha) as [msg ->]. by eexists.
Qed.

(** A loop over strings fails at its first element. *)
Lemma format_articles_strings (names : list string) :
  names ≠ [] →
  ∀ i lines, ∃ msg,
    format_articles repr_str i (map VStr names) lines = Raise (AttributeError msg).
Proof.
  destruct names as [|s names]; [done|]. intros _ i lines. simpl. by eexists.
Qed.

Lemma format_final_answer_renders (task : string) (data : value) :
  renders data = true → ∃ answer, format_final_answer repr_str task data = Ok answer.
Proof.
  destruct data as [| | | | | |d]; try (intros _; by eexists).
  simpl. destruct (dict_get "articles" d) as [articles|].
  - destruct (truthy articles) eqn:Htruthy; simpl; [|intros _; by eexists].
    destruct articles as [| | | | |items|]; try discriminate.
    intros Hall. simpl.
    destruct (format_articles_printable items Hall 1 [articles_header]) as [out ->].
    by eexists.
  - intros _. destruct (dict_has "temperature" d); by eexists.
Qed.

(** The rendering raises [TypeError] when the "articles" entry cannot be
    iterated (a number or [True]) and [AttributeError] when an element drawn
    from it has no [get], or its "source" has none. *)
Lemma format_final_answer_raises (task : string) (data : value) :
  renders data = false →
  ∃ msg,
    format_final_answer repr_str task data = Raise (AttributeError msg) ∨
    format_final_answer repr_str task data = Raise (TypeError msg).
Proof.
  destruct data as [| | | | | |d]; try discriminate.
  simpl. destruct (dict_get "articles" d) as [articles|]; [|discriminate].
  destruct (truthy articles) eqn:Htruthy; simpl; [|discriminate].
  destruct articles as [|b|n|f|s|items|entries]; simpl in *;
    try discriminate; try (intros _; eexists; by right).
  - intros _. destruct s as [|c rest]; [discriminate|].
    destruct (format_articles_strings (code_points (String c rest))
                (code_points_nonempty c rest) 1 [articles_header]) as [msg ->].
    exists msg. by left.
  - intros Hall.
    destruct (format_articles_unprintable items Hall 1 [articles_header]) as [msg ->].
    exists msg. by left.
  - intros _. destruct entries as [|[k v] entries]; [discriminate|].
    eexists. by left.
Qed.
End Rendering.

(** C2, as the code has it.  [verify_results] returns a verification
    result, of the Complete or of the Incomplete shape, whenever [errors] is
    not empty, or [final_data] is missing or false, or [final_data] renders:
    it is not a dictionary with an "articles" entry, or that entry is false,
    or it is a list of dictionaries whose "source" entries, where present,
    are dictionaries.  The verifier catches nothing itself: with no errors
    and a true [final_data] that does not render, it raises
    [AttributeError] or [TypeError]. *)
Theorem verify_results_returns_when_renders (repr_str : string → string)
    (task : string) (r : ExecutionResult) (plan : Plan) :
  (errors r ≠ [] ∨ truthy (default VNone (final_data r)) = false
   ∨ renders (default VNone (final_data r)) = true →
   ∃ vr, verify_results repr_str task r plan = Ok vr ∧
         (complete_shape vr ∨ incomplete_shape r vr)) ∧
  (errors r = [] → truthy (default VNone (final_data r)) = true →
   renders (default VNone (final_data r)) = false →
   ∃ msg,
     verify_results repr_str task r plan = Raise (AttributeError msg) ∨
     verify_results repr_str task r plan = Raise (TypeError msg)).
Proof.
  unfold verify_results. split.
  - intros Hcases. destruct (errors r) as [|entry entries] eqn:Herr.
    + destruct (truthy (default VNone (final_data r))) eqn:Htruthy; simpl.
      * destruct Hcases as [?|[?|Hrenders]]; [done..|].
        destruct (format_final_answer_renders repr_str task _ Hrenders) as [answer ->].
        simpl. eexists. split; [done|]. left. by repeat split.
      * eexists. split; [done|]. right. repeat split; by eauto.
    + eexists. split; [done|]. right. repeat split; by eauto.
  - intros -> -> Hno. simpl.
    destruct (format_final_answer_raises repr_str task _ Hno) as [msg [-> | ->]];
      exists msg; [by left | by right].
Qed.

Lemma verify_results_returns_when_renders_witness :
  ∃ vr, verify_results sample_repr "news about Tesla"
          (sample_results []
             (Some (VDict [("articles",
                            VList [VDict [("title", VStr "Model Y");
                                          ("source", VDict [("name", VStr "Reuters")])]])])))
          (sample_plan [])
        = Ok vr ∧ is_complete vr = true.
Proof.
  destruct (verify_results_returns_when_renders sample_repr "news about Tesla"
              (sample_results []
                 (Some (VDict [("articles",
                                VList [VDict [("title", VStr "Model Y");
                                              ("source", VDict [("name", VStr "Reuters")])]])])))
              (sample_plan [])) as (Hreturns & _).
  destruct Hreturns as (vr & Hvr & _).
  - right. right. reflexivity.
  - exists vr. split; [exact Hvr|].
    vm_compute in Hvr. injection Hvr as <-. reflexivity.
Defined.

(** C2 as stated fails: an article whose "source" is a string makes
    [verify_results] raise [AttributeError]. *)
Lemma verify_results_raises_on_string_source :
  verify_results sample_repr "news about Tesla"
    (sample_results []
       (Some (VDict [("articles",
                      VList [VDict [("title", VStr "Model Y"); ("source", VStr "Reuters")]])])))
    (sample_plan [])
  = Raise (AttributeError "'str' object has no attribute 'get'")
  ∧
  ¬ ∃ vr, verify_results sample_repr "news about Tesla"
            (sample_results []
               (Some (VDict [("articles",
                              VList [VDict [("title", VStr "Model Y");
                                            ("source", VStr "Reuters")]])])))
            (sample_plan [])
          = Ok vr.
Proof.
  split; [reflexivity|]. intros [vr Hvr]. vm_compute in Hvr. discriminate.
Qed.

(** C6. A plan with no steps makes [execute_plan] return [errors = []],
    [raw_data = {}] and no [final_data] entry, without any call, and
    [verify_results] on that result returns the Incomplete shape with
    [issues_found = ["No data returned from tools"]] and
    [confidence = "low"]. *)
Theorem empty_plan_is_incomplete {World : Type} (repr_str : string → string)
    (self : ExecutorAgent World) (plan : Plan) (env : Env World) (task : string) :
  default [] (steps plan) = [] →
  ∃ r,
    execute_plan self plan env = (Ok r, env) ∧
    steps_executed r = [] ∧ errors r = [] ∧ raw_data r = ∅ ∧ final_data r = None ∧
    verify_results repr_str task r plan
    = Ok {| is_complete := false;
            confidence := "low";
            final_answer := "Unable to fully complete the task: No data returned from tools.";
            issues_found := ["No data returned from tools"];
            missing_data := [];
            suggestions := [];
            raw_results := Some r |}.
Proof.
  intros Hempty. exists (initial_results plan).
  unfold execute_plan. rewrite Hempty. by repeat split.
Qed.

Lemma empty_plan_is_incomplete_witness :
  ∃ r,
    execute_plan sample_agent (sample_plan []) (sample_env [Ok sample_weather])
    = (Ok r, sample_env [Ok sample_weather]) ∧
    final_data r = None ∧
    issues_found <$> (match verify_results sample_repr "weather in Paris" r (sample_plan []) with
                      | Ok vr => Some vr
                      | Raise _ => None
                      end)
    = Some ["No data returned from tools"].
Proof.
  destruct (empty_plan_is_incomplete sample_repr sample_agent (sample_plan [])
              (sample_env [Ok sample_weather]) "weather in Paris" eq_refl)
    as (r & Hplan & _ & _ & _ & Hfinal & Hverify).
  exists r. split; [exact Hplan|]. split; [exact Hfinal|].
  rewrite Hverify. reflexivity.
Defined.

(** * Further properties of the executor *)

Section ExecutorCalls.
Context {World : Type}.
Implicit Types (self : ExecutorAgent World) (step : Step) (env : Env World).

(** A step makes no call, one call or two calls, all of them the same. *)
Lemma execute_step_calls self step env :
  ∃ v env' n,
    execute_step self step env = (Ok v, env') ∧
    log env' = log env ++ replicate n (invocation_of step) ∧
    (n ≤ 2)%nat.
Proof.
  destruct (tools self !! tool step) as [t|] eqn:Ht.
  - destruct (hasattr t (function step)) eqn:Hf.
    + destruct (call t (function step) (parameters step) (world env)) as [[r1|e] w1] eqn:Hc.
      * destruct (is_error_payload r1) eqn:Hr.
        -- destruct (call t (function step) (parameters step) w1) as [o2 w2] eqn:Hc2.
           eexists _, _, 2%nat. split; [by eapply execute_step_retries|]. by split.
        -- eexists _, _, 1%nat. split; [by eapply execute_step_first_succeeds|]. split; [done|lia].
      * eexists _, _, 1%nat. split; [by eapply execute_step_first_raises|]. split; [done|lia].
    + eexists _, _, 0%nat. split; [by eapply unresolved_function_step|].
      split; [by rewrite app_nil_r|lia].
  - eexists _, _, 0%nat. split; [by apply unresolved_tool_step|].
    split; [by rewrite app_nil_r|lia].
Qed.

Lemma for_each_step_calls self (steps : list Step) :
  ∀ results env, ∃ r env' calls,
    for_each_step self steps results env = (Ok r, env') ∧
    log env' = log env ++ calls ∧
    (length calls ≤ 2 * length steps)%nat ∧
    Forall (λ c, ∃ s, s ∈ steps ∧ c = invocation_of s) calls.
Proof.
  induction steps as [|step rest IH]; intros results env.
  - exists results, env, []. repeat split; [by rewrite app_nil_r|simpl; lia|constructor].
  - destruct (execute_step_calls self step env) as (v & env1 & n & Hstep & Hlog1 & Hn).
    destruct (IH (record_step step v results) env1)
      as (r & env' & calls & Hloop & Hlog & Hlen & Hall).
    exists r, env', (replicate n (invocation_of step) ++ calls).
    split; [|split; [|split]].
    + simpl. unfold mbind, M_bind. by rewrite Hstep.
    + by rewrite Hlog, Hlog1, app_assoc.
    + rewrite length_app, length_replicate. simpl. lia.
    + apply Forall_app. split.
      * apply Forall_replicate. exists step. split; [left|done].
      * eapply Forall_impl; [exact Hall|]. intros c (s & Hs & ->).
        exists s. split; [by right|done].
Qed.

(** X1. Running a plan adds at most two calls per step to the log, keeps
    what was logged before, and every call it adds is the call of one of
    the plan's steps (its tool, function and parameters). *)
Theorem execute_plan_call_bound self (plan : Plan) env :
  ∃ r env' calls,
    execute_plan self plan env = (Ok r, env') ∧
    log env' = log env ++ calls ∧
    (length calls ≤ 2 * length (default [] (steps plan)))%nat ∧
    Forall (λ c, ∃ s, s ∈ default [] (steps plan) ∧
                      inv_tool c = tool s ∧ inv_function c = function s ∧
                      inv_parameters c = parameters s) calls.
Proof.
  destruct (for_each_step_calls self (default [] (steps plan)) (initial_results plan) env)
    as (r & env' & calls & Hloop & Hlog & Hlen & Hall).
  exists (designate_final (default [] (steps plan)) r), env', calls.
  split; [|split; [done|split; [done|]]].
  - unfold execute_plan, mbind, M_bind. fold (initial_results plan). by rewrite Hloop.
  - eapply Forall_impl; [exact Hall|]. intros c (s & Hs & ->). by exists s.
Qed.

(** X6. A capability that answers the same whatever the world is gives the
    step the same outcome in every environment, so running the step twice
    gives the same outcome twice: the value it returns, or the
    "Execution failed" payload for the exception it raises. *)
Theorem execute_step_deterministic self step (t : Connector World) (o : result value) :
  tools self !! tool step = Some t →
  hasattr t (function step) = true →
  (∀ w, fst (call t (function step) (parameters step) w) = o) →
  ∀ env,
    fst (execute_step self step env)
    = Ok (match o with
          | Ok v => v
          | Raise e => VDict [("error", VStr ("Execution failed: " +:+ exn_str e))]
          end) ∧
    fst (execute_step self step (snd (execute_step self step env)))
    = fst (execute_step self step env).
Proof.
  intros Ht Hf Hsame.
  assert (∀ env, fst (execute_step self step env)
                 = Ok (match o with
                       | Ok v => v
                       | Raise e => execution_failed e
                       end)) as Hany.
  { intros env.
    destruct (call t (function step) (parameters step) (world env)) as [o1 w1] eqn:Hc1.
    pose proof (Hsame (world env)) as H1. rewrite Hc1 in H1. simpl in H1. subst o1.
    destruct o as [r1|e].
    - destruct (is_error_payload r1) eqn:Hr.
      + destruct (call t (function step) (parameters step) w1) as [o2 w2] eqn:Hc2.
        pose proof (Hsame w1) as H2. rewrite Hc2 in H2. simpl in H2. subst o2.
        by rewrite (execute_step_retries self step t env r1 w1 (Ok r1) w2).
      + by rewrite (execute_step_first_succeeds self step t env r1 w1).
    - by rewrite (execute_step_first_raises self step t env e w1). }
  intros env. split; [apply Hany|]. by rewrite !Hany.
Qed.
End ExecutorCalls.

Lemma execute_step_deterministic_witness :
  fst (execute_step steady_agent (sample_step 1 "weather" "get_current_weather")
         (sample_env [Ok VNone]))
  = Ok sample_failure.
Proof.
  destruct (execute_step_deterministic steady_agent
              (sample_step 1 "weather" "get_current_weather")
              (steady ["get_current_weather"] (Ok sample_failure))
              (Ok sample_failure) eq_refl eq_refl) with (env := sample_env [Ok VNone])
    as [Hfirst _].
  - intros w. reflexivity.
  - exact Hfirst.
Defined.

(** * Further properties of the plan executor and of the pipeline *)

Lemma append_prefix_inj (p a b : string) : p +:+ a = p +:+ b → a = b.
Proof.
  induction p as [|c p IH]; [done|].
  intros H. apply IH.
  change (String c (p +:+ a) = String c (p +:+ b)) in H. by injection H.
Qed.

Lemma step_key_inj (m n : Z) : step_key m = step_key n → m = n.
Proof. intros H. apply (inj pretty). by apply append_prefix_inj in H. Qed.

Lemma status_is_success_or_failed (records : list StepRecord) :
  Forall (λ r, (rec_status r = "failed" ↔ is_error_payload (rec_result r) = true) ∧
               (rec_status r = "success" ↔ is_error_payload (rec_result r) = false))
         records →
  (length (filter (λ r, rec_status r = "success") records)
   + length (filter (λ r, rec_status r = "failed") records))%nat
  = length records.
Proof.
  induction 1 as [|r records [Hf Hs] _ IH]; [done|].
  rewrite !filter_cons.
  destruct (is_error_payload (rec_result r)) eqn:Hr.
  - assert (rec_status r = "failed") as Hfailed by by apply Hf.
    destruct (decide (rec_status r = "success")) as [Hsucc|_]; [congruence|].
    destruct (decide (rec_status r = "failed")); [|done]. simpl. lia.
  - assert (rec_status r = "success") as Hsucc by by apply Hs.
    destruct (decide (rec_status r = "failed")) as [Hfailed|_]; [congruence|].
    destruct (decide (rec_status r = "success")); [|done]. simpl. lia.
Qed.

Lemma records_status (done : list (Step * value)) :
  Forall (λ r, (rec_status r = "failed" ↔ is_error_payload (rec_result r) = true) ∧
               (rec_status r = "success" ↔ is_error_payload (rec_result r) = false))
         (map (λ so, step_record (fst so) (snd so)) done).
Proof.
  induction done as [|[s o] done IH]; simpl; constructor;
    [apply step_record_status | exact IH].
Qed.

Lemma error_entries_nil (records : list StepRecord) :
  omap error_entry records = [] →
  Forall (λ r, is_error_payload (rec_result r) = false) records.
Proof.
  induction records as [|r records IH]; [constructor|].
  change (omap error_entry (r :: records))
    with (match error_entry r with
          | Some e => e :: omap error_entry records
          | None => omap error_entry records
          end).
  destruct (error_entry r) as [entry|] eqn:E; [discriminate|].
  intros Hnil. constructor; [|by apply IH].
  destruct (is_error_payload (rec_result r)) eqn:Hr; [|done].
  apply error_entry_is_Some in Hr as [? ?]. congruence.
Qed.

Section RawData.
Implicit Types (done : list (Step * value)) (results : ExecutionResult).

Lemma record_all_raw_data_lookup done results (k : string) (v : value) :
  raw_data (record_all done results) !! k = Some v →
  raw_data results !! k = Some v ∨
  ∃ s, In (s, v) done ∧ k = step_key (step_number s).
Proof.
  induction done as [|[s o] done IH] using rev_ind; [by left|].
  rewrite record_all_snoc. simpl.
  destruct (decide (step_key (step_number s) = k)) as [<-|Hne].
  - rewrite lookup_insert_eq. intros [= <-]. right. exists s.
    split; [|done]. apply in_or_app. right. by left.
  - rewrite lookup_insert_ne by done. intros Hk.
    destruct (IH Hk) as [?|(s' & Hin & ->)]; [by left|].
    right. exists s'. split; [|done]. apply in_or_app. by left.
Qed.

Lemma record_all_raw_data_is_Some done results (k : string) :
  is_Some (raw_data (record_all done results) !! k)
  ↔ is_Some (raw_data results !! k) ∨
    ∃ s, In s (map fst done) ∧ k = step_key (step_number s).
Proof.
  induction done as [|[s o] done IH] using rev_ind.
  - simpl. split; [by left|]. by intros [?|(? & [] & _)].
  - rewrite record_all_snoc. simpl. rewrite lookup_insert_is_Some, IH, map_app. simpl.
    split.
    + intros [<-|(_ & [?|(s' & Hin & ->)])].
      * right. exists s. split; [|done]. apply in_or_app. right. by left.
      * by left.
      * right. exists s'. split; [|done]. apply in_or_app. by left.
    + intros [Hk|(s' & Hin & ->)].
      * destruct (decide (step_key (step_number s) = k)); [by left|]. right. by eauto.
      * apply in_app_or in Hin as [Hin|[<-|[]]].
        -- destruct (decide (step_key (step_number s) = step_key (step_number s')));
             [by left|]. right. split; [done|]. right. by eauto.
        -- by left.
Qed.

Lemma record_all_raw_data_size done results :
  (size (raw_data (record_all done results)) ≤ size (raw_data results) + length done)%nat.
Proof.
  induction done as [|[s o] done IH] using rev_ind; [simpl; lia|].
  rewrite record_all_snoc, length_app. unfold record_step. cbn [raw_data length].
  rewrite map_size_insert.
  destruct (raw_data (record_all done results) !! step_key (step_number s));
    unfold id; lia.
Qed.

Lemma record_all_raw_data_size_distinct done :
  ∀ results,
  raw_data results = ∅ →
  NoDup (map (λ so, step_number (fst so)) done) →
  size (raw_data (record_all done results)) = length done.
Proof.
  induction done as [|[s o] done IH] using rev_ind; intros results Hempty Hnodup.
  - simpl. rewrite Hempty. apply map_size_empty.
  - rewrite map_app in Hnodup. apply NoDup_app in Hnodup as (Hdone & Hfresh & _).
    rewrite record_all_snoc, length_app. unfold record_step. cbn [raw_data length].
    rewrite map_size_insert.
    destruct (raw_data (record_all done results) !! step_key (step_number s)) eqn:Hk.
    + exfalso. apply record_all_raw_data_lookup in Hk as [Hk|(s' & Hin & Heq)].
      * by rewrite Hempty, lookup_empty in Hk.
      * apply step_key_inj in Heq. apply (Hfresh (step_number s)).
        -- apply list_elem_of_In, in_map_iff. exists (s', v). split; [by rewrite Heq|done].
        -- simpl. left.
    + rewrite (IH results Hempty Hdone). lia.
Qed.
End RawData.

Section PipelineProperties.
Context {World : Type}.
Implicit Types (self : ExecutorAgent World) (plan : Plan) (env : Env World).

(** What a finished [execute_plan] hands to the verifier. *)
Lemma execute_plan_facts self plan env (r : ExecutionResult) (env' : Env World) :
  execute_plan self plan env = (Ok r, env') →
  ∃ outcomes,
    length outcomes = length (default [] (steps plan)) ∧
    steps_executed r
    = map (λ so, step_record (fst so) (snd so)) (zip (default [] (steps plan)) outcomes) ∧
    errors r = omap error_entry (steps_executed r) ∧
    raw_data r
    = raw_data (record_all (zip (default [] (steps plan)) outcomes) (initial_results plan)) ∧
    final_data r = match errors r with
                   | [] => rec_result <$> last (steps_executed r)
                   | _ => None
                   end.
Proof.
  intros Hplan.
  destruct (execute_plan_records self plan env)
    as (outs & r0 & env0 & _ & Hlen & Hplan0 & Hr & Hrecs & Herrs).
  rewrite Hplan0 in Hplan. injection Hplan as <- <-.
  set (steps := default [] (steps plan)) in *.
  set (looped := record_all (zip steps outs) (initial_results plan)) in *.
  destruct (designate_final_keeps steps looped) as (_ & Hkeep_recs & Hkeep_errs & Hkeep_raw).
  rewrite <- Hr in Hkeep_recs, Hkeep_errs, Hkeep_raw.
  assert (final_data looped = None) as Hnone
    by (unfold looped; by rewrite record_all_final_data).
  exists outs. split; [done|]. split; [done|]. split; [done|]. split; [done|].
  destruct (final_data r0) as [v|] eqn:Hfinal.
  - rewrite Hr in Hfinal.
    destruct (designate_final_value steps looped v Hnone Hfinal) as (last_step & Hlast & Hdef).
    destruct (record_all_last steps outs (initial_results plan) last_step Hlen Hlast)
      as (o & _ & Hraw & Hrec).
    fold looped in Hraw, Hrec. rewrite Hraw in Hdef. simpl in Hdef. subst v.
    assert (is_Some (final_data (designate_final steps looped))) as Hsome by by eexists.
    apply (designate_final_sets steps looped Hnone) in Hsome as (Hnoerr & _ & _).
    rewrite <- Hkeep_errs in Hnoerr. rewrite Hnoerr, Hkeep_recs, Hrec. done.
  - destruct (errors r0) as [|e es] eqn:He; [|done].
    destruct (last (steps_executed r0)) as [record|] eqn:Hlast_rec; [|done].
    exfalso.
    assert (is_Some (final_data (designate_final steps looped))) as [v Hv].
    { apply (designate_final_sets steps looped Hnone).
      rewrite <- Hkeep_errs, <- Hkeep_raw. split; [done|].
      assert (steps ≠ []) as Hsteps.
      { intros Hnil. rewrite Hrecs, Hnil in Hlast_rec. done. }
      split; [|done]. rewrite Hkeep_raw. unfold looped.
      apply record_all_raw_data_nonempty.
      destruct steps as [|s steps']; [done|]. by destruct outs. }
    rewrite <- Hr in Hv. congruence.
Qed.

(** X2. After a plan has run, [raw_data] has an entry exactly under the
    keys "step_<n>" of the plan's step numbers, and each entry is the
    outcome recorded for a step with that number.  Steps that share a number
    share an entry, so [raw_data] has at most as many entries as the plan
    has steps, and exactly as many when the step numbers are distinct. *)
Theorem execute_plan_raw_data_keys self plan env :
  ∃ r env',
    execute_plan self plan env = (Ok r, env') ∧
    (∀ k, is_Some (raw_data r !! k)
          ↔ ∃ s, In s (default [] (steps plan)) ∧ k = "step_" +:+ pretty (step_number s)) ∧
    (∀ k v, raw_data r !! k = Some v →
            ∃ record, In record (steps_executed r) ∧
                      k = "step_" +:+ pretty (rec_step_number record) ∧
                      rec_result record = v) ∧
    (size (raw_data r) ≤ length (default [] (steps plan)))%nat ∧
    (NoDup (map step_number (default [] (steps plan))) →
     size (raw_data r) = length (default [] (steps plan))).
Proof.
  destruct (execute_plan_records self plan env)
    as (outs & r & env' & _ & Hlen & Hplan & _ & _ & _).
  destruct (execute_plan_facts self plan env r env' Hplan)
    as (outs' & Hlen' & Hrecs & _ & Hraw & _).
  set (steps := default [] (steps plan)) in *.
  assert (map fst (zip steps outs') = steps) as Hfst
    by exact (eq_trans (map_zip_fst (λ s : Step, s) steps outs' Hlen') (map_id steps)).
  exists r, env'. split; [done|]. rewrite Hraw. repeat split.
  - intros Hk. apply record_all_raw_data_is_Some in Hk as [Hk|Hk].
    + simpl in Hk. rewrite lookup_empty in Hk. by destruct Hk.
    + by rewrite Hfst in Hk.
  - intros Hk. apply record_all_raw_data_is_Some. right. by rewrite Hfst.
  - intros k v Hk. apply record_all_raw_data_lookup in Hk as [Hk|(s & Hin & ->)].
    + simpl in Hk. by rewrite lookup_empty in Hk.
    + exists (step_record s v). split; [|done].
      rewrite Hrecs. apply in_map_iff. by exists (s, v).
  - pose proof (record_all_raw_data_size (zip steps outs') (initial_results plan)) as Hsize.
    simpl in Hsize. rewrite map_size_empty, length_zip_with in Hsize. lia.
  - intros Hnodup.
    rewrite (record_all_raw_data_size_distinct (zip steps outs') (initial_results plan)).
    + rewrite length_zip_with. lia.
    + done.
    + by rewrite (map_zip_fst step_number).
Qed.

(** X3. The counts the request handler prints add up: the number of
    [errors] entries never exceeds the number of executed steps, and the
    difference (its "successful" count) is the number of records whose
    status is "success"; the number of executed steps is the number of steps
    of the plan. *)
Theorem execute_plan_counts self plan env :
  ∃ r env',
    execute_plan self plan env = (Ok r, env') ∧
    length (steps_executed r) = length (default [] (steps plan)) ∧
    (length (errors r) ≤ length (steps_executed r))%nat ∧
    (length (steps_executed r) - length (errors r))%nat
    = length (filter (λ rec, rec_status rec = "success") (steps_executed r)).
Proof.
  destruct (execute_plan_records self plan env)
    as (outs & r & env' & _ & Hlen & Hplan & _ & Hrecs & Herrs).
  exists r, env'. split; [done|].
  pose proof (records_status (zip (default [] (steps plan)) outs)) as Hstatus.
  rewrite <- Hrecs in Hstatus.
  pose proof (status_is_success_or_failed _ Hstatus) as Hsum.
  assert (length (errors r)
          = length (filter (λ rec, rec_status rec = "failed") (steps_executed r))) as Hcount.
  { rewrite Herrs. apply count_error_entries.
    eapply Forall_impl; [exact Hstatus|]. by intros rec [? _]. }
  split; [|lia].
  rewrite Hrecs, length_map, length_zip_with. lia.
Qed.

(** X4. One failed step anywhere in the plan makes the whole task
    incomplete: [final_data] is not set and the verifier answers
    "Execution errors occurred", whatever the other steps returned.  When
    the verifier answers Complete, every step has status "success" and the
    answer is the rendering of the last step's outcome, which is true. *)
Theorem pipeline_all_or_nothing (repr_str : string → string) self plan env
    (task : string) :
  ∃ r env',
    execute_plan self plan env = (Ok r, env') ∧
    (Exists (λ rec, rec_status rec = "failed") (steps_executed r) →
     final_data r = None ∧
     verify_results repr_str task r plan
     = Ok (incomplete "Execution errors occurred" r "low")) ∧
    (∀ vr, verify_results repr_str task r plan = Ok vr →
       is_complete vr = true →
       Forall (λ rec, rec_status rec = "success") (steps_executed r) ∧
       ∃ last_record,
         last (steps_executed r) = Some last_record ∧
         truthy (rec_result last_record) = true ∧
         format_final_answer repr_str task (rec_result last_record)
         = Ok (final_answer vr)).
Proof.
  destruct (execute_plan_records self plan env)
    as (outs & r & env' & _ & _ & Hplan & _ & _ & _).
  destruct (execute_plan_facts self plan env r env' Hplan)
    as (outs' & Hlen & Hrecs & Herrs & _ & Hfinal).
  pose proof (records_status (zip (default [] (steps plan)) outs')) as Hstatus.
  rewrite <- Hrecs in Hstatus.
  exists r, env'. split; [done|]. split.
  - intros Hfailed.
    assert (errors r ≠ []) as Hne.
    { intros Hnil. rewrite Herrs in Hnil. apply error_entries_nil in Hnil.
      apply Exists_exists in Hfailed as (rec & Hin & Hrec).
      rewrite Forall_forall in Hstatus, Hnil.
      apply (Hstatus rec Hin) in Hrec. rewrite (Hnil rec Hin) in Hrec. done. }
    unfold verify_results. destruct (errors r); [done|]. by rewrite Hfinal.
  - intros vr Hvr Hcomplete. unfold verify_results in Hvr.
    destruct (errors r) as [|e es] eqn:He.
    2:{ injection Hvr as <-. done. }
    assert (Forall (λ rec, rec_status rec = "success") (steps_executed r)) as Hall.
    { symmetry in Herrs. apply error_entries_nil in Herrs.
      rewrite Forall_forall in Hstatus, Herrs. apply Forall_forall. intros rec Hin.
      by apply (Hstatus rec Hin), Herrs. }
    split; [done|].
    rewrite Hfinal in Hvr.
    destruct (last (steps_executed r)) as [last_record|]; simpl in Hvr.
    2:{ injection Hvr as <-. done. }
    destruct (truthy (rec_result last_record)) eqn:Htruthy; simpl in Hvr.
    2:{ injection Hvr as <-. done. }
    exists last_record. split; [done|]. split; [done|].
    destruct (format_final_answer repr_str task (rec_result last_record)) as [answer|e];
      simpl in Hvr; [|done].
    by injection Hvr as <-.
Qed.

(** X5. A plan whose steps all succeed still ends Incomplete when its last
    step returned a false value ([None], an empty list, an empty
    dictionary, ...): the verifier answers "No data returned from tools". *)
Theorem empty_last_outcome_is_incomplete (repr_str : string → string) self plan env
    (task : string) :
  ∃ r env',
    execute_plan self plan env = (Ok r, env') ∧
    (Forall (λ rec, rec_status rec = "success") (steps_executed r) →
     ∀ last_record,
       last (steps_executed r) = Some last_record →
       truthy (rec_result last_record) = false →
       errors r = [] ∧
       final_data r = Some (rec_result last_record) ∧
       verify_results repr_str task r plan
       = Ok (incomplete "No data returned from tools" r "low")).
Proof.
  destruct (execute_plan_records self plan env)
    as (outs & r & env' & _ & _ & Hplan & _ & _ & _).
  destruct (execute_plan_facts self plan env r env' Hplan)
    as (outs' & Hlen & Hrecs & Herrs & _ & Hfinal).
  pose proof (records_status (zip (default [] (steps plan)) outs')) as Hstatus.
  rewrite <- Hrecs in Hstatus.
  exists r, env'. split; [done|].
  intros Hall last_record Hlast Hfalse.
  assert (errors r = []) as Hnoerr.
  { rewrite Herrs. apply no_error_entries.
    rewrite Forall_forall in Hstatus, Hall. apply Forall_forall. intros rec Hin.
    by apply (Hstatus rec Hin), Hall. }
  rewrite Hnoerr, Hlast in Hfinal. simpl in Hfinal.
  split; [done|]. split; [done|].
  unfold verify_results. rewrite Hnoerr, Hfinal. simpl. by rewrite Hfalse.
Qed.
End PipelineProperties.

Lemma execute_plan_raw_data_keys_witness :
  ∃ r env',
    execute_plan sample_agent
      (sample_plan [sample_step 1 "github" "search_repositories";
                    sample_step 2 "weather" "get_current_weather"])
      (sample_env [Ok (VList []); Ok sample_weather])
    = (Ok r, env') ∧
    size (raw_data r) = 2%nat.
Proof.
  destruct (execute_plan_raw_data_keys sample_agent
              (sample_plan [sample_step 1 "github" "search_repositories";
                            sample_step 2 "weather" "get_current_weather"])
              (sample_env [Ok (VList []); Ok sample_weather]))
    as (r & env' & Hplan & _ & _ & _ & Hsize).
  exists r, env'. split; [exact Hplan|].
  apply Hsize. simpl. apply NoDup_cons. split.
  - intros Hin. apply list_elem_of_singleton in Hin. discriminate.
  - apply NoDup_singleton.
Defined.

Lemma pipeline_all_or_nothing_witness :
  ∃ r env',
    execute_plan sample_agent
      (sample_plan [sample_step 1 "foo" "search";
                    sample_step 2 "weather" "get_current_weather"])
      (sample_env [Ok sample_weather])
    = (Ok r, env') ∧
    verify_results sample_repr "weather in Paris" r
      (sample_plan [sample_step 1 "foo" "search";
                    sample_step 2 "weather" "get_current_weather"])
    = Ok (incomplete "Execution errors occurred" r "low").
Proof.
  destruct (pipeline_all_or_nothing sample_repr sample_agent
              (sample_plan [sample_step 1 "foo" "search";
                            sample_step 2 "weather" "get_current_weather"])
              (sample_env [Ok sample_weather]) "weather in Paris")
    as (r & env' & Hplan & Hfailed & _).
  exists r, env'. split; [exact Hplan|].
  apply Hfailed.
  vm_compute in Hplan. injection Hplan as <- <-.
  apply Exists_cons_hd. reflexivity.
Defined.

Lemma empty_last_outcome_is_incomplete_witness :
  ∃ r env',
    execute_plan sample_agent
      (sample_plan [sample_step 1 "serp" "get_answer_box"])
      (sample_env [Ok VNone])
    = (Ok r, env') ∧
    verify_results sample_repr "who is the president" r
      (sample_plan [sample_step 1 "serp" "get_answer_box"])
    = Ok (incomplete "No data returned from tools" r "low").
Proof.
  destruct (empty_last_outcome_is_incomplete sample_repr sample_agent
              (sample_plan [sample_step 1 "serp" "get_answer_box"])
              (sample_env [Ok VNone]) "who is the president")
    as (r & env' & Hplan & Hfalsy).
  exists r, env'. split; [exact Hplan|].
  vm_compute in Hplan. injection Hplan as <- <-.
  eapply Hfalsy.
  - repeat constructor.
  - reflexivity.
  - reflexivity.
Defined.

(** * Further properties of the verifier and of the report *)

Section ReportProperties.
Variable upper_char : string → string.
Variable repr_str : string → string.
Implicit Types (task : string) (r : ExecutionResult) (plan : Plan).

(** X7. When the verifier answers Incomplete, for execution errors or for
    missing data, the report shows the status INCOMPLETE, the confidence
    LOW, the one reason as a bullet under "Issues Found", and the
    "Unable to fully complete the task" sentence as the answer; nothing of
    the execution results themselves is printed. *)
Theorem report_of_incomplete task r plan :
  errors r ≠ [] ∨ truthy (default VNone (final_data r)) = false →
  ∃ vr reason,
    verify_results repr_str task r plan = Ok vr ∧
    reason = (match errors r with
              | [] => "No data returned from tools"
              | _ => "Execution errors occurred"
              end) ∧
    format_output upper_char vr
    = join nl [str_repeat "=" 60;
               "AI OPERATIONS ASSISTANT - RESULTS";
               str_repeat "=" 60;
               EmptyString;
               "Status: ⚠ INCOMPLETE";
               "Confidence: LOW";
               EmptyString;
               "⚠ Issues Found:";
               "  - " +:+ reason;
               EmptyString;
               str_repeat "=" 60;
               "ANSWER:";
               str_repeat "=" 60;
               "Unable to fully complete the task: " +:+ reason +:+ ".";
               EmptyString;
               str_repeat "=" 60].
Proof.
  intros Hcase. unfold verify_results.
  destruct (errors r) as [|e es] eqn:He.
  - destruct Hcase as [?|Hfalse]; [done|]. rewrite Hfalse. simpl.
    eexists _, _. split; [done|]. split; reflexivity.
  - eexists _, _. split; [done|]. split; reflexivity.
Qed.

(** X8. When the verifier answers Complete, the report shows the status
    COMPLETE and the confidence HIGH, has no "Issues Found" block, and
    carries the final answer unchanged between the separator lines. *)
Theorem report_of_complete task r plan (vr : VerificationResult) :
  verify_results repr_str task r plan = Ok vr →
  is_complete vr = true →
  format_output upper_char vr
  = join nl [str_repeat "=" 60;
             "AI OPERATIONS ASSISTANT - RESULTS";
             str_repeat "=" 60;
             EmptyString;
             "Status: ✓ COMPLETE";
             "Confidence: HIGH";
             EmptyString;
             str_repeat "=" 60;
             "ANSWER:";
             str_repeat "=" 60;
             final_answer vr;
             EmptyString;
             str_repeat "=" 60].
Proof.
  unfold verify_results. intros Hvr Hcomplete.
  destruct (errors r); [|by injection Hvr as <-].
  destruct (truthy (default VNone (final_data r))); simpl in Hvr;
    [|by injection Hvr as <-].
  destruct (format_final_answer repr_str task (default VNone (final_data r)))
    as [answer|e]; simpl in Hvr; [|done].
  injection Hvr as <-. reflexivity.
Qed.
End ReportProperties.

Lemma report_of_incomplete_witness :
  ∃ vr,
    verify_results sample_repr "weather in Paris" (sample_results [] None) (sample_plan [])
    = Ok vr ∧
    is_prefix (str_repeat "=" 60) (format_output sample_repr vr) = true.
Proof.
  destruct (report_of_incomplete sample_repr sample_repr "weather in Paris"
              (sample_results [] None) (sample_plan []))
    as (vr & reason & Hvr & _ & Hreport).
  - right. reflexivity.
  - exists vr. split; [exact Hvr|]. rewrite Hreport. reflexivity.
Defined.

Lemma report_of_complete_witness :
  ∃ vr,
    verify_results sample_repr "weather in Paris"
      (sample_results [] (Some sample_weather)) (sample_plan [])
    = Ok vr ∧
    is_prefix (str_repeat "=" 60) (format_output sample_repr vr) = true.
Proof.
  eexists. split; [reflexivity|].
  rewrite (report_of_complete sample_repr sample_repr "weather in Paris"
             (sample_results [] (Some sample_weather)) (sample_plan []) _
             eq_refl eq_refl).
  reflexivity.
Defined.

Section NewsRendering.
Variable repr_str : string → string.

Lemma format_article_entry (i : Z) (article : value) :
  printable_article article = true →
  ∃ fields, article = VDict fields ∧
            format_article repr_str i article = Ok (article_entry repr_str i fields).
Proof.
  destruct article as [| | | | | |fields]; try discriminate. simpl.
  intros Hsource. exists fields. split; [done|].
  unfold format_article, article_entry. cbn [py_get mbind result_bind].
  destruct (dict_get "source" fields) as [[| | | | | |source]|]; try discriminate;
    reflexivity.
Qed.

Lemma format_articles_entries (items : list value) :
  forallb printable_article items = true →
  ∀ (i : Z) (lines : list string),
    ∃ entries,
      format_articles repr_str i items lines = Ok (lines ++ entries) ∧
      length entries = length items ∧
      ∀ (k : nat) article, items !! k = Some article →
        ∃ fields, article = VDict fields ∧
                  entries !! k = Some (article_entry repr_str (i + Z.of_nat k) fields).
Proof.
  induction items as [|a items IH]; intros Hall i lines.
  - exists []. split; [by rewrite app_nil_r|]. split; [done|].
    intros k article Hk. by rewrite lookup_nil in Hk.
  - simpl in Hall. apply andb_prop in Hall as [Ha Hrest].
    destruct (format_article_entry i a Ha) as (fields & -> & Hline).
    destruct (IH Hrest (i + 1)%Z (lines ++ [article_entry repr_str i fields]))
      as (entries & Hloop & Hlen & Hnum).
    exists (article_entry repr_str i fields :: entries).
    split; [|split].
    + cbn [format_articles]. rewrite Hline. cbn [mbind result_bind].
      rewrite Hloop. by rewrite <- app_assoc.
    + simpl. lia.
    + intros [|k] article Hk; simpl in Hk.
      * injection Hk as <-. exists fields. split; [done|]. simpl. by rewrite Z.add_0_r.
      * destruct (Hnum k article Hk) as (fields' & -> & Hentry).
        exists fields'. split; [done|]. simpl. rewrite Hentry.
        by replace (i + 1 + Z.of_nat k)%Z with (i + Z.of_nat (S k))%Z by lia.
Qed.

(** X9. A payload whose "articles" entry is a non-empty list of printable
    articles is rendered as the header followed by one entry per article,
    in the order of the list: the entry of the k-th article (counting from
    1) is "<k>. <title>", "   Source: <name of its source>",
    "   Published: <publishedAt>" and "   Link: <url>", each on its own
    line, with "No title", "Unknown source", "Unknown date" and the empty
    string for what the article lacks. *)
Theorem articles_are_numbered (task : string) (d : list (string * value))
    (items : list value) :
  dict_get "articles" d = Some (VList items) →
  items ≠ [] →
  forallb printable_article items = true →
  ∃ entries,
    format_final_answer repr_str task (VDict d)
    = Ok (join nl
            (("Here are the most recent Tesla-related news articles from the last month:"
              +:+ nl) :: entries)) ∧
    length entries = length items ∧
    ∀ (k : nat) article, items !! k = Some article →
      ∃ fields,
        article = VDict fields ∧
        entries !! k
        = Some (pretty (Z.of_nat k + 1)%Z +:+ ". "
                +:+ py_str repr_str (default (VStr "No title") (dict_get "title" fields))
                +:+ nl
                +:+ "   Source: "
                +:+ py_str repr_str
                      (match dict_get "source" fields with
                       | Some (VDict source) =>
                           default (VStr "Unknown source") (dict_get "name" source)
                       | _ => VStr "Unknown source"
                       end)
                +:+ nl
                +:+ "   Published: "
                +:+ py_str repr_str
                      (default (VStr "Unknown date") (dict_get "publishedAt" fields))
                +:+ nl
                +:+ "   Link: "
                +:+ py_str repr_str (default (VStr EmptyString) (dict_get "url" fields))
                +:+ nl).
Proof.
  intros Hd Hne Hall. unfold format_final_answer. rewrite Hd.
  destruct items as [|a items]; [done|]. simpl truthy. simpl negb. cbv iota.
  cbn [py_iter mbind result_bind].
  destruct (format_articles_entries (a :: items) Hall 1 [articles_header])
    as (entries & Hout & Hlen & Hnum).
  rewrite Hout.
  exists entries. split; [done|]. split; [done|].
  intros k article Hk. destruct (Hnum k article Hk) as (fields & -> & Hentry).
  exists fields. split; [done|]. rewrite Hentry. unfold article_entry.
  by rewrite (Z.add_comm 1).
Qed.
End NewsRendering.

Lemma articles_are_numbered_witness :
  ∃ entries,
    format_final_answer sample_repr "news about Tesla"
      (VDict [("articles", VList [VDict [("title", VStr "Model Y")];
                                  VDict [("title", VStr "Model 3")]])])
    = Ok (join nl (articles_header :: entries)) ∧
    length entries = 2%nat.
Proof.
  destruct (articles_are_numbered sample_repr "news about Tesla"
              [("articles", VList [VDict [("title", VStr "Model Y")];
                                   VDict [("title", VStr "Model 3")]])]
              [VDict [("title", VStr "Model Y")]; VDict [("title", VStr "Model 3")]]
              eq_refl) as (entries & Hfmt & Hlen & _).
  - discriminate.
  - reflexivity.
  - exists entries. split; [exact Hfmt | exact Hlen].
Defined.

(** * Properties of the planner *)

Lemma all_in_true (fields : list string) (container : value) :
  all_in fields container = Ok true
  ↔ Forall (λ name, py_in name container = Ok true) fields.
Proof.
  induction fields as [|name rest IH]; simpl.
  - split; [constructor|done].
  - destruct (py_in name container) as [[|]|e] eqn:Hin; simpl.
    + rewrite IH. split; [by constructor|]. by inversion 1.
    + split; [done|]. inversion 1; congruence.
    + split; [done|]. inversion 1; congruence.
Qed.

Section PlannerProperties.
Variable repr_str : string → string.

Lemma validate_steps_true (plan_steps : list value) :
  validate_steps plan_steps = Ok true
  ↔ Forall (λ step, Forall (λ name, py_in name step = Ok true) step_fields) plan_steps.
Proof.
  induction plan_steps as [|step rest IH].
  - split; [constructor|done].
  - cbn [validate_steps].
    destruct (all_in step_fields step) as [[|]|e] eqn:Hall; cbn [mbind result_bind negb].
    + rewrite IH. apply all_in_true in Hall. split; [by constructor|]. by inversion 1.
    + split; [done|]. inversion 1 as [|? ? Hstep _]; simplify_eq.
      apply all_in_true in Hstep. congruence.
    + split; [done|]. inversion 1 as [|? ? Hstep _]; simplify_eq.
      apply all_in_true in Hstep. congruence.
Qed.

(** X10. [_validate_plan] answers [True] exactly for a dictionary that has
    the four required keys, whose "steps" entry is a list, and whose steps
    each contain the five step field names.  Nothing else validates: a plan
    that is a list or a string never does, even one that contains the four
    names.  A step need not be a dictionary: the test is [name in step]. *)
Theorem validate_plan_true (plan : value) :
  validate_plan repr_str plan = Ok true
  ↔ ∃ d plan_steps,
      plan = VDict d ∧
      Forall (λ name, dict_has name d = true)
             ["task_understanding"; "required_tools"; "steps"; "expected_output"] ∧
      dict_get "steps" d = Some (VList plan_steps) ∧
      Forall (λ step,
                Forall (λ name, py_in name step = Ok true)
                       ["step_number"; "action"; "tool"; "function"; "parameters"])
             plan_steps.
Proof.
  unfold validate_plan. split.
  - destruct (all_in required_fields plan) as [[|]|e] eqn:Hall; simpl; [|done..].
    destruct plan as [| | | | | |d]; simpl; try done.
    destruct (dict_get "steps" d) as [[| | | | |plan_steps|]|] eqn:Hsteps; try done.
    intros Hvalid. exists d, plan_steps. split; [done|]. split; [|split; [done|]].
    + apply all_in_true in Hall. eapply Forall_impl; [exact Hall|].
      simpl. by intros name [= ->].
    + by apply validate_steps_true.
  - intros (d & plan_steps & -> & Hkeys & Hsteps & Hall).
    assert (all_in required_fields (VDict d) = Ok true) as ->.
    { apply all_in_true. eapply Forall_impl; [exact Hkeys|]. simpl. by intros name ->. }
    simpl. rewrite Hsteps. by apply validate_steps_true.
Qed.

(** X11. [create_plan] never raises.  It returns the generated plan when
    the model produced one and validation answered [True]; in every other
    case (the model's call raised, validation raised, or validation answered
    [False]) it returns the fallback plan for the task, with no steps and
    the exception's text under "error". *)
Theorem create_plan_outcome (generated : result value) (user_task : string) :
  ∃ plan,
    create_plan repr_str generated user_task = Ok plan ∧
    ((generated = Ok plan ∧ validate_plan repr_str plan = Ok true) ∨
     ∃ e,
       plan = VDict [("task_understanding", VStr user_task);
                     ("required_tools", VList []);
                     ("steps", VList []);
                     ("expected_output", VStr "Planning failed");
                     ("error", VStr (exn_str e))] ∧
       (generated = Raise e ∨
        ∃ generated_plan,
          generated = Ok generated_plan ∧
          (validate_plan repr_str generated_plan = Raise e ∨
           (validate_plan repr_str generated_plan = Ok false ∧
            e = ValueError "Generated plan does not match required schema")))).
Proof.
  unfold create_plan. destruct generated as [plan|e]; simpl.
  - destruct (validate_plan repr_str plan) as [[|]|e] eqn:Hvalid; simpl.
    + exists plan. split; [done|]. by left.
    + eexists. split; [done|]. right. eexists. split; [done|]. right.
      exists plan. split; [done|]. by right.
    + eexists. split; [done|]. right. exists e. split; [done|]. right.
      exists plan. split; [done|]. by left.
  - eexists. split; [done|]. right. exists e. split; [done|]. by left.
Qed.

(** X12. Whatever the model does, the plan [create_plan] returns satisfies
    [_validate_plan]: the fallback plan is itself a valid plan, with an
    empty list of steps. *)
Theorem create_plan_validates (generated : result value) (user_task : string) :
  ∃ plan,
    create_plan repr_str generated user_task = Ok plan ∧
    validate_plan repr_str plan = Ok true.
Proof.
  destruct (create_plan_outcome generated user_task) as (plan & Hplan & [[_ Hvalid]|Hfallback]).
  - by exists plan.
  - destruct Hfallback as (e & -> & _). eexists. split; [exact Hplan|]. reflexivity.
Qed.

(** X13. The request handler gives up when ["error" in plan].  The plan
    of [create_plan] is always a dictionary, so the test never raises; it
    is true whenever planning failed, and when it is false the plan is the
    one the model generated and validation accepted it. *)
Theorem planning_failure_is_flagged (generated : result value) (user_task : string) :
  ∃ plan flagged,
    create_plan repr_str generated user_task = Ok plan ∧
    py_in "error" plan = Ok flagged ∧
    (flagged = false → generated = Ok plan ∧ validate_plan repr_str plan = Ok true) ∧
    ((∀ accepted, generated = Ok accepted → validate_plan repr_str accepted ≠ Ok true) →
     flagged = true).
Proof.
  destruct (create_plan_outcome generated user_task) as (plan & Hplan & [[Hgen Hvalid]|Hfallback]).
  - pose proof Hvalid as Hdict. apply validate_plan_true in Hdict as (d & _ & -> & _).
    exists (VDict d), (dict_has "error" d). split; [done|]. split; [done|].
    split; [done|]. intros Hnever. by destruct (Hnever (VDict d) Hgen).
  - destruct Hfallback as (e & -> & _). eexists _, true. split; [exact Hplan|].
    split; [reflexivity|]. split; [done|]. done.
Qed.
End PlannerProperties.

Lemma validate_plan_true_witness :
  validate_plan sample_repr sample_plan_value = Ok true.
Proof.
  apply (validate_plan_true sample_repr sample_plan_value).
  eexists _, _. split; [reflexivity|]. split; [|split; [reflexivity|]].
  - repeat constructor.
  - repeat constructor.
Defined.

Lemma planning_failure_is_flagged_witness :
  ∃ plan,
    create_plan sample_repr
      (Raise {| exn_class := "Exception"; exn_str := "LLM generation failed: timeout" |})
      "weather in Paris"
    = Ok plan ∧
    py_in "error" plan = Ok true.
Proof.
  destruct (planning_failure_is_flagged sample_repr
              (Raise {| exn_class := "Exception";
                        exn_str := "LLM generation failed: timeout" |})
              "weather in Paris")
    as (plan & flagged & Hplan & Hin & _ & Hflag).
  exists plan. split; [exact Hplan|].
  rewrite Hin. f_equal. apply Hflag. intros accepted Hgen. discriminate.
Defined.

(** * Properties of the configuration status *)

Lemma configured_true (environ : gmap string string) (name : string) :
  configured environ name = true
  ↔ ∃ v, environ !! name = Some v ∧ v ≠ EmptyString.
Proof.
  unfold configured. destruct (environ !! name) as [v|].
  - destruct (String.eqb_spec v EmptyString) as [->|Hne]; simpl.
    + split; [done|]. by intros (? & [= <-] & ?).
    + split; [by eauto|done].
  - split; [done|]. by intros (? & ? & _).
Qed.

(** X14. The health endpoint reports "healthy" exactly when the five key
    variables are set to non-empty values, and "partially_configured"
    otherwise; when it reports "healthy", every tool of [get_tool_status]
    is available. *)
Theorem health_check_healthy (environ : gmap string string) :
  (health_status (health_check environ) = "healthy"
   ↔ Forall (λ name, ∃ v, environ !! name = Some v ∧ v ≠ EmptyString)
            ["NEBIUS_API_KEY"; "GITHUB_API_KEY"; "OPENWEATHER_API_KEY";
             "NEWS_API_KEY"; "SERP_API_KEY"]) ∧
  (health_status (health_check environ) ≠ "healthy" →
   health_status (health_check environ) = "partially_configured") ∧
  (health_status (health_check environ) = "healthy" →
   ∀ tool_name available,
     tools_available (health_check environ) !! tool_name = Some available →
     available = true).
Proof.
  assert (health_status (health_check environ) = "healthy"
          ↔ configured environ "NEBIUS_API_KEY" = true ∧
            configured environ "GITHUB_API_KEY" = true ∧
            configured environ "OPENWEATHER_API_KEY" = true ∧
            configured environ "NEWS_API_KEY" = true ∧
            configured environ "SERP_API_KEY" = true) as Hiff.
  { unfold health_check, all_values. cbn [health_status].
    case_bool_decide as Hall.
    - split; [intros _|done].
      repeat split.
      + by apply (Hall "NEBIUS_API_KEY").
      + by apply (Hall "GITHUB_API_KEY").
      + by apply (Hall "OPENWEATHER_API_KEY").
      + by apply (Hall "NEWS_API_KEY").
      + by apply (Hall "SERP_API_KEY").
    - split; [done|]. intros (H1 & H2 & H3 & H4 & H5). exfalso. apply Hall.
      intros k b Hk.
      repeat (apply lookup_insert_Some in Hk as [[<- <-]|[_ Hk]]; [done|]).
      by rewrite lookup_empty in Hk. }
  split; [|split].
  - rewrite Hiff, !Forall_cons, Forall_nil, <- !configured_true. tauto.
  - unfold health_check. cbn [health_status]. by destruct (all_values _).
  - intros Hhealthy tool_name available Hk. apply Hiff in Hhealthy as (_ & H2 & H3 & H4 & H5).
    unfold health_check, get_tool_status in Hk. cbn [tools_available] in Hk.
    repeat (apply lookup_insert_Some in Hk as [[<- <-]|[_ Hk]]; [done|]).
    by rewrite lookup_empty in Hk.
Qed.

Lemma health_check_healthy_witness :
  health_status (health_check sample_environ) = "healthy" ∧
  tools_available (health_check sample_environ) !! "weather" = Some true.
Proof.
  destruct (health_check_healthy sample_environ) as (Hiff & _ & Htools).
  assert (health_status (health_check sample_environ) = "healthy") as Hhealthy.
  { apply Hiff. repeat constructor; eexists; (split; [reflexivity|discriminate]). }
  split; [exact Hhealthy|].
  destruct (tools_available (health_check sample_environ) !! "weather") as [b|] eqn:Hw.
  - f_equal. exact (Htools Hhealthy "weather" b Hw).
  - vm_compute in Hw. discriminate.
Defined.

(** X15. Only the four key variables decide [get_tool_status]: setting any
    other variable changes nothing, and setting a key variable to the empty
    string is the same as removing it. *)
Theorem get_tool_status_environ (environ : gmap string string) (name v : string) :
  (name ∉ ["GITHUB_API_KEY"; "OPENWEATHER_API_KEY"; "NEWS_API_KEY"; "SERP_API_KEY"] →
   get_tool_status (<[name := v]> environ) = get_tool_status environ) ∧
  get_tool_status (<[name := EmptyString]> environ) = get_tool_status (delete name environ).
Proof.
  split.
  - intros Hname.
    assert (∀ key, key ∈ ["GITHUB_API_KEY"; "OPENWEATHER_API_KEY"; "NEWS_API_KEY";
                         "SERP_API_KEY"] →
                   configured (<[name := v]> environ) key = configured environ key) as Hsame.
    { intros key Hkey. unfold configured. rewrite lookup_insert_ne; [done|].
      by intros ->. }
    unfold get_tool_status. rewrite !Hsame; [done|set_solver..].
  - assert (∀ key, configured (<[name := EmptyString]> environ) key
                   = configured (delete name environ) key) as Hsame.
    { intros key. unfold configured. destruct (decide (name = key)) as [->|Hne].
      - by rewrite lookup_insert_eq, lookup_delete_eq.
      - by rewrite lookup_insert_ne, lookup_delete_ne. }
    unfold get_tool_status. by rewrite !Hsame.
Qed.

Lemma get_tool_status_environ_witness :
  get_tool_status (<["HOME" := "/root"]> sample_environ) = get_tool_status sample_environ.
Proof.
  destruct (get_tool_status_environ sample_environ "HOME" "/root") as [Hother _].
  apply Hother. apply (bool_decide_unpack _). vm_compute. exact I.
Defined.

(** * Properties of the connectors *)

Lemma get_nested_dict (d : list (string * value)) (outer inner : string) :
  dict_or_missing d outer = true →
  ∃ v, get_nested (VDict d) outer inner = Ok v.
Proof.
  unfold dict_or_missing, get_nested. simpl.
  destruct (dict_get outer d) as [[| | | | | |o]|]; try discriminate; intros _; by eexists.
Qed.

Lemma get_nested_not_dict (d : list (string * value)) (outer inner : string) :
  dict_or_missing d outer = false →
  ∃ e, get_nested (VDict d) outer inner = Raise e.
Proof.
  unfold dict_or_missing, get_nested. simpl.
  destruct (dict_get outer d) as [[| | | | | |o]|]; try discriminate; intros _; by eexists.
Qed.

(** What a returned weather dictionary is made of. *)
Lemma get_current_weather_shape (data units v : value) :
  get_current_weather (HttpJson data) units = Ok v →
  ∃ city country temperature feels_like temp_min temp_max humidity pressure
    weather_main description wind_speed clouds,
    get_nested data "main" "temp" = Ok temperature ∧
    get_nested data "main" "humidity" = Ok humidity ∧
    get_first_weather data "description" = Ok description ∧
    get_nested data "wind" "speed" = Ok wind_speed ∧
    v = VDict [("city", city); ("country", country); ("temperature", temperature);
               ("feels_like", feels_like); ("temp_min", temp_min);
               ("temp_max", temp_max); ("humidity", humidity); ("pressure", pressure);
               ("weather", weather_main); ("description", description);
               ("wind_speed", wind_speed); ("clouds", clouds);
               ("units", VStr (units_label units))].
Proof.
  unfold get_current_weather.
  destruct (py_get data "name" VNone) as [city|]; simpl; [|done].
  destruct (get_nested data "sys" "country") as [country|]; simpl; [|done].
  destruct (get_nested data "main" "temp") as [temperature|]; simpl; [|done].
  destruct (get_nested data "main" "feels_like") as [feels_like|]; simpl; [|done].
  destruct (get_nested data "main" "temp_min") as [temp_min|]; simpl; [|done].
  destruct (get_nested data "main" "temp_max") as [temp_max|]; simpl; [|done].
  destruct (get_nested data "main" "humidity") as [humidity|]; simpl; [|done].
  destruct (get_nested data "main" "pressure") as [pressure|]; simpl; [|done].
  destruct (get_first_weather data "main") as [weather_main|]; simpl; [|done].
  destruct (get_first_weather data "description") as [description|]; simpl; [|done].
  destruct (get_nested data "wind" "speed") as [wind_speed|]; simpl; [|done].
  destruct (get_nested data "clouds" "all") as [clouds|]; simpl; [|done].
  intros [= <-]. by eexists _, _, _, _, _, _, _, _, _, _, _, _.
Qed.

Section WeatherProperties.
Variable repr_str : string → string.

(** X16. What [get_current_weather] returns for a decoded response is never
    an error payload, and when it is the final data of a run without errors
    the verifier reports it as the weather: the temperature read from
    "main"."temp" with the label of the requested units ("°C" for "metric",
    "°F" for "imperial", "K" for anything else), the description of the
    first "weather" element, the humidity and the wind speed. *)
Theorem current_weather_is_reported (task : string) (data units v : value) :
  get_current_weather (HttpJson data) units = Ok v →
  ∃ temperature description humidity wind_speed,
    get_nested data "main" "temp" = Ok temperature ∧
    get_first_weather data "description" = Ok description ∧
    get_nested data "main" "humidity" = Ok humidity ∧
    get_nested data "wind" "speed" = Ok wind_speed ∧
    is_error_payload v = false ∧
    (∀ r plan, errors r = [] → final_data r = Some v →
       verify_results repr_str task r plan
       = Ok {| is_complete := true;
               confidence := "high";
               final_answer :=
                 join nl ["Current Weather Report:";
                          "Temperature: " +:+ py_str repr_str temperature +:+ " "
                            +:+ (if eq_str units "metric" then "°C"
                                 else if eq_str units "imperial" then "°F" else "K");
                          "Condition: " +:+ py_str repr_str description;
                          "Humidity: " +:+ py_str repr_str humidity +:+ "%";
                          "Wind Speed: " +:+ py_str repr_str wind_speed +:+ " m/s"];
               issues_found := [];
               missing_data := [];
               suggestions := [];
               raw_results := None |}).
Proof.
  intros Hv.
  destruct (get_current_weather_shape data units v Hv)
    as (city & country & temperature & feels_like & temp_min & temp_max & humidity
        & pressure & weather_main & description & wind_speed & clouds
        & Htemp & Hhum & Hdesc & Hwind & ->).
  exists temperature, description, humidity, wind_speed.
  repeat (split; [done|]).
  intros r plan Herr Hfinal. unfold verify_results. rewrite Herr, Hfinal.
  cbn [default from_option id truthy negb]. cbv iota.
  unfold format_final_answer, weather_report. simpl.
  do 2 f_equal. unfold units_label. by rewrite !string_app_assoc.
Qed.
End WeatherProperties.

Lemma get_first_weather_ok (d : list (string * value)) (inner : string) :
  match dict_get "weather" d with
  | None | Some (VList (VDict _ :: _)) => true
  | Some _ => false
  end = true →
  ∃ v, get_first_weather (VDict d) inner = Ok v.
Proof.
  unfold get_first_weather. simpl.
  destruct (dict_get "weather" d) as [[| | | | |[|[| | | | | |w] items]|]|];
    try discriminate; intros _; by eexists.
Qed.

Lemma get_first_weather_bad (d : list (string * value)) (inner : string) :
  match dict_get "weather" d with
  | None | Some (VList (VDict _ :: _)) => true
  | Some _ => false
  end = false →
  ∃ e, get_first_weather (VDict d) inner = Raise e.
Proof.
  unfold get_first_weather. simpl.
  destruct (dict_get "weather" d) as [[| | | | s|[|[| | | | | |w] items]|entries]|];
    try discriminate; intros _; simpl; try by eexists.
  destruct (code_points s); simpl; by eexists.
Qed.

(** X17. [get_current_weather] returns a value exactly for a well-formed
    response body and raises for any other: in particular an empty "weather"
    list raises [IndexError] (the default [[{}]] only covers a missing
    key).  Such an exception is not a [RequestException]: it leaves the
    method, and the step executor turns it into an "Execution failed"
    payload after that single call. *)
Theorem get_current_weather_returns_iff (data units : value) :
  (weather_body_ok data = true →
   ∃ v, get_current_weather (HttpJson data) units = Ok v) ∧
  (weather_body_ok data = false →
   ∃ e, get_current_weather (HttpJson data) units = Raise e ∧
        ∀ (World : Type) (self : ExecutorAgent World) (step : Step)
          (t : Connector World) (env : Env World) (w1 : World),
          tools self !! tool step = Some t →
          hasattr t (function step) = true →
          call t (function step) (parameters step) (world env)
          = (get_current_weather (HttpJson data) units, w1) →
          execute_step self step env
          = (Ok (VDict [("error", VStr ("Execution failed: " +:+ exn_str e))]),
             {| world := w1; log := log env ++ [invocation_of step] |})) ∧
  (∀ d, data = VDict d →
     dict_or_missing d "sys" = true →
     dict_or_missing d "main" = true →
     dict_get "weather" d = Some (VList []) →
     get_current_weather (HttpJson data) units
     = Raise (IndexError "list index out of range")).
Proof.
  split; [|split].
  - destruct data as [| | | | | |d]; try discriminate. simpl.
    intros Hok. repeat (apply andb_prop in Hok as [Hok ?]).
    unfold get_current_weather. simpl py_get. cbn [mbind result_bind].
    destruct (get_nested_dict d "sys" "country") as [? ->]; [done|].
    destruct (get_nested_dict d "main" "temp") as [? ->]; [done|].
    destruct (get_nested_dict d "main" "feels_like") as [? ->]; [done|].
    destruct (get_nested_dict d "main" "temp_min") as [? ->]; [done|].
    destruct (get_nested_dict d "main" "temp_max") as [? ->]; [done|].
    destruct (get_nested_dict d "main" "humidity") as [? ->]; [done|].
    destruct (get_nested_dict d "main" "pressure") as [? ->]; [done|].
    destruct (get_first_weather_ok d "main") as [? ->]; [done|].
    destruct (get_first_weather_ok d "description") as [? ->]; [done|].
    destruct (get_nested_dict d "wind" "speed") as [? ->]; [done|].
    destruct (get_nested_dict d "clouds" "all") as [? ->]; [done|].
    cbn [mbind result_bind]. by eexists.
  - intros Hbad.
    assert (∃ e, get_current_weather (HttpJson data) units = Raise e) as [e He].
    { destruct data as [| | | | | |d]; try (by eexists).
      simpl in Hbad. unfold get_current_weather. simpl py_get. cbn [mbind result_bind].
      destruct (dict_or_missing d "sys") eqn:Hsys.
      2:{ destruct (get_nested_not_dict d "sys" "country" Hsys) as [e ->]. by eexists. }
      destruct (get_nested_dict d "sys" "country" Hsys) as [? ->]. cbn [mbind result_bind].
      destruct (dict_or_missing d "main") eqn:Hmain.
      2:{ destruct (get_nested_not_dict d "main" "temp" Hmain) as [e ->]. by eexists. }
      destruct (get_nested_dict d "main" "temp" Hmain) as [? ->].
      destruct (get_nested_dict d "main" "feels_like" Hmain) as [? ->].
      destruct (get_nested_dict d "main" "temp_min" Hmain) as [? ->].
      destruct (get_nested_dict d "main" "temp_max" Hmain) as [? ->].
      destruct (get_nested_dict d "main" "humidity" Hmain) as [? ->].
      destruct (get_nested_dict d "main" "pressure" Hmain) as [? ->].
      cbn [mbind result_bind].
      destruct (match dict_get "weather" d with
                | None | Some (VList (VDict _ :: _)) => true
                | Some _ => false
                end) eqn:Hweather.
      2:{ destruct (get_first_weather_bad d "main" Hweather) as [e ->]. by eexists. }
      destruct (get_first_weather_ok d "main" Hweather) as [? ->].
      destruct (get_first_weather_ok d "description" Hweather) as [? ->].
      cbn [mbind result_bind].
      destruct (dict_or_missing d "wind") eqn:Hwind.
      2:{ destruct (get_nested_not_dict d "wind" "speed" Hwind) as [e ->]. by eexists. }
      destruct (get_nested_dict d "wind" "speed" Hwind) as [? ->]. cbn [mbind result_bind].
      destruct (dict_or_missing d "clouds") eqn:Hclouds; [done|].
      destruct (get_nested_not_dict d "clouds" "all" Hclouds) as [e ->]. by eexists. }
    exists e. split; [done|].
    intros World self step t env w1 Ht Hf Hcall. rewrite He in Hcall.
    by rewrite (execute_step_first_raises self step t env e w1).
  - intros d -> Hsys Hmain Hweather.
    unfold get_current_weather. simpl py_get. cbn [mbind result_bind].
    destruct (get_nested_dict d "sys" "country" Hsys) as [? ->].
    destruct (get_nested_dict d "main" "temp" Hmain) as [? ->].
    destruct (get_nested_dict d "main" "feels_like" Hmain) as [? ->].
    destruct (get_nested_dict d "main" "temp_min" Hmain) as [? ->].
    destruct (get_nested_dict d "main" "temp_max" Hmain) as [? ->].
    destruct (get_nested_dict d "main" "humidity" Hmain) as [? ->].
    destruct (get_nested_dict d "main" "pressure" Hmain) as [? ->].
    cbn [mbind result_bind]. unfold get_first_weather. simpl py_get. rewrite Hweather.
    reflexivity.
Qed.

Lemma get_current_weather_returns_iff_witness :
  get_current_weather (HttpJson (VDict [("name", VStr "Paris"); ("weather", VList [])]))
    (VStr "metric")
  = Raise (IndexError "list index out of range").
Proof.
  destruct (get_current_weather_returns_iff
              (VDict [("name", VStr "Paris"); ("weather", VList [])]) (VStr "metric"))
    as (_ & _ & Hempty).
  apply (Hempty [("name", VStr "Paris"); ("weather", VList [])]); reflexivity.
Defined.

Section ConnectorFailures.
Context {World : Type}.
Variable repr_str : string → string.
Implicit Types (self : ExecutorAgent World) (step : Step) (env : Env World)
  (t : Connector World).

(** X18. A failed request of a list-returning method ([search_news],
    [get_top_headlines], [search_repositories]) comes back as a one-element
    list holding the error dictionary.  That is not an error payload: the
    step executor does not retry, the record says "success", no [errors]
    entry is made, and as final data the verifier reports it Complete, the
    answer being the printed list. *)
Theorem list_connector_failure_passes self step t env (w1 : World)
    (msg task : string) (method_result : result value) :
  method_result = search_news (HttpFailed msg) ∨
  method_result = search_repositories (HttpFailed msg) →
  tools self !! tool step = Some t →
  hasattr t (function step) = true →
  call t (function step) (parameters step) (world env) = (method_result, w1) →
  ∃ detail,
    (detail = "News API request failed: " +:+ msg ∨
     detail = "GitHub API request failed: " +:+ msg) ∧
    execute_step self step env
    = (Ok (VList [VDict [("error", VStr detail)]]),
       {| world := w1; log := log env ++ [invocation_of step] |}) ∧
    rec_status (step_record step (VList [VDict [("error", VStr detail)]])) = "success" ∧
    error_entry (step_record step (VList [VDict [("error", VStr detail)]])) = None ∧
    (∀ r plan, errors r = [] →
       final_data r = Some (VList [VDict [("error", VStr detail)]]) →
       verify_results repr_str task r plan
       = Ok {| is_complete := true;
               confidence := "high";
               final_answer := "[{" +:+ repr_str "error" +:+ ": " +:+ repr_str detail +:+ "}]";
               issues_found := [];
               missing_data := [];
               suggestions := [];
               raw_results := None |}).
Proof.
  intros Hmethod Ht Hf Hcall.
  assert (∃ detail,
            (detail = "News API request failed: " +:+ msg ∨
             detail = "GitHub API request failed: " +:+ msg) ∧
            method_result = Ok (VList [VDict [("error", VStr detail)]]))
    as (detail & Hdetail & ->).
  { destruct Hmethod as [->| ->]; eexists; (split; [|reflexivity]); by eauto. }
  exists detail. split; [done|]. split.
  { by apply (execute_step_first_succeeds self step t env _ w1). }
  split; [done|]. split; [done|].
  intros r plan Herr Hfinal. unfold verify_results. rewrite Herr, Hfinal. simpl.
  do 2 f_equal. by rewrite !string_app_assoc.
Qed.

(** X19. A failed request of a dictionary-returning method
    ([get_current_weather], [get_answer_box]) comes back as
    [{"error": "<API> request failed: <detail>"}].  That is an error
    payload: the step executor calls the method a second time and the
    outcome of the step is what the second call does. *)
Theorem dict_connector_failure_is_retried self step t env (w1 w2 : World)
    (msg : string) (units : value) (method_result second : result value) :
  method_result = get_current_weather (HttpFailed msg) units ∨
  method_result = get_answer_box (HttpFailed msg) →
  tools self !! tool step = Some t →
  hasattr t (function step) = true →
  call t (function step) (parameters step) (world env) = (method_result, w1) →
  call t (function step) (parameters step) w1 = (second, w2) →
  (method_result = Ok (VDict [("error", VStr ("Weather API request failed: " +:+ msg))]) ∨
   method_result = Ok (VDict [("error", VStr ("SERP API request failed: " +:+ msg))])) ∧
  execute_step self step env
  = (Ok (match second with
         | Ok v => v
         | Raise e => VDict [("error", VStr ("Execution failed: " +:+ exn_str e))]
         end),
     {| world := w2; log := log env ++ [invocation_of step; invocation_of step] |}).
Proof.
  intros Hmethod Ht Hf Hcall Hsecond.
  destruct Hmethod as [->| ->]; (split; [by eauto|]);
    by rewrite (execute_step_retries self step t env _ w1 second w2 Ht Hf Hcall eq_refl Hsecond).
Qed.
End ConnectorFailures.

Lemma collect_Forall2 (build : value → result value) (items out : list value) :
  collect build items = Ok out → Forall2 (λ item entry, build item = Ok entry) items out.
Proof.
  revert out. induction items as [|item items IH]; intros out; simpl.
  - intros [= <-]. constructor.
  - destruct (build item) as [entry|] eqn:Hentry; simpl; [|done].
    destruct (collect build items) as [entries|]; simpl; [|done].
    intros [= <-]. constructor; [done|]. by apply IH.
Qed.

Section ListConnectors.
Variable repr_str : string → string.

(** X20. Whatever [search_news] (or [get_top_headlines]) and
    [search_repositories] return is a list.  A list is never an error
    payload, and the verifier prints it with the generic [str]: the numbered
    news layout is never used for the output of the news connector. *)
Theorem list_connector_results_are_printed (task : string) (http : http_outcome)
    (method_result : result value) (v : value) :
  method_result = search_news http ∨ method_result = search_repositories http →
  method_result = Ok v →
  ∃ items,
    v = VList items ∧
    is_error_payload v = false ∧
    format_final_answer repr_str task v = Ok (py_str repr_str v).
Proof.
  intros Hmethod Hv.
  assert (∃ items, v = VList items) as [items ->].
  { destruct Hmethod as [->| ->]; destruct http as [data|msg|e]; simpl in Hv.
    - destruct (py_get data "articles" (VList [])) as [listed|]; simpl in Hv; [|done].
      destruct (py_iter listed) as [items|]; simpl in Hv; [|done].
      destruct (collect news_article items) as [out|]; simpl in Hv; [|done].
      injection Hv as <-. by eexists.
    - injection Hv as <-. by eexists.
    - done.
    - destruct (py_get data "items" (VList [])) as [listed|]; simpl in Hv; [|done].
      destruct (py_iter listed) as [items|]; simpl in Hv; [|done].
      destruct (collect github_repo items) as [out|]; simpl in Hv; [|done].
      injection Hv as <-. by eexists.
    - injection Hv as <-. by eexists.
    - done. }
  by exists items.
Qed.
End ListConnectors.

Lemma news_article_entry (article : value) :
  printable_article article = true →
  ∃ fields, article = VDict fields ∧ news_article article = Ok (news_entry fields).
Proof.
  destruct article as [| | | | | |fields]; try discriminate. simpl.
  intros Hsource. exists fields. split; [done|].
  unfold news_article, get_nested, news_entry. cbn [py_get mbind result_bind].
  destruct (dict_get "source" fields) as [[| | | | | |source]|]; try discriminate;
    reflexivity.
Qed.

Lemma news_article_unprintable (article : value) :
  printable_article article = false →
  ∃ msg, news_article article = Raise (AttributeError msg).
Proof.
  destruct article as [| | | | | |fields]; try (intros _; by eexists).
  simpl. unfold news_article, get_nested. cbn [py_get mbind result_bind].
  destruct (dict_get "source" fields) as [[| | | | | |source]|]; try discriminate;
    intros _; by eexists.
Qed.

Lemma collect_news_entries (items : list value) :
  forallb printable_article items = true →
  ∃ out,
    collect news_article items = Ok out ∧
    length out = length items ∧
    ∀ (k : nat) article, items !! k = Some article →
      ∃ fields, article = VDict fields ∧ out !! k = Some (news_entry fields).
Proof.
  induction items as [|a items IH]; intros Hall.
  - exists []. split; [done|]. split; [done|].
    intros k article Hk. by rewrite lookup_nil in Hk.
  - simpl in Hall. apply andb_prop in Hall as [Ha Hrest].
    destruct (news_article_entry a Ha) as (fields & -> & Hentry).
    destruct (IH Hrest) as (out & Hout & Hlen & Hmap).
    exists (news_entry fields :: out). split; [|split].
    + cbn [collect]. rewrite Hentry. cbn [mbind result_bind]. by rewrite Hout.
    + simpl. lia.
    + intros [|k] article Hk; simpl in Hk.
      * injection Hk as <-. by exists fields.
      * by apply Hmap.
Qed.

Lemma collect_news_unprintable (items : list value) :
  forallb printable_article items = false →
  ∃ msg, collect news_article items = Raise (AttributeError msg).
Proof.
  induction items as [|a items IH]; intros Hall; simpl in Hall; [discriminate|].
  cbn [collect]. destruct (printable_article a) eqn:Ha.
  - destruct (news_article_entry a Ha) as (fields & -> & ->). cbn [mbind result_bind].
    destruct (IH Hall) as [msg ->]. by exists msg.
  - destruct (news_article_unprintable a Ha) as [msg ->]. by exists msg.
Qed.

(** X21. For a response whose "articles" entry is a list, [search_news]
    returns exactly when every article is a dictionary whose "source" is
    missing or a dictionary.  It then returns one dictionary per article, in
    the same order, with the keys title, description, source, author, url,
    published_at and content: the fields are copied ([None] for a missing
    one), "publishedAt" is renamed "published_at", and "source" is flattened
    to the name inside the article's source.  With any other article in the
    list it raises [AttributeError]. *)
Theorem search_news_maps_articles (d : list (string * value)) (articles : list value) :
  dict_get "articles" d = Some (VList articles) →
  (forallb printable_article articles = true →
   ∃ out,
     search_news (HttpJson (VDict d)) = Ok (VList out) ∧
     length out = length articles ∧
     ∀ (k : nat) article, articles !! k = Some article →
       ∃ fields,
         article = VDict fields ∧
         out !! k
         = Some (VDict [("title", default VNone (dict_get "title" fields));
                        ("description", default VNone (dict_get "description" fields));
                        ("source",
                         match dict_get "source" fields with
                         | Some (VDict source) => default VNone (dict_get "name" source)
                         | _ => VNone
                         end);
                        ("author", default VNone (dict_get "author" fields));
                        ("url", default VNone (dict_get "url" fields));
                        ("published_at", default VNone (dict_get "publishedAt" fields));
                        ("content", default VNone (dict_get "content" fields))])) ∧
  (forallb printable_article articles = false →
   ∃ msg, search_news (HttpJson (VDict d)) = Raise (AttributeError msg)).
Proof.
  intros Hd. split.
  - intros Hall. destruct (collect_news_entries articles Hall) as (out & Hout & Hlen & Hmap).
    exists out. split; [|split; [done|]].
    + unfold search_news. cbn [py_get mbind result_bind]. rewrite Hd.
      cbn [from_option id py_iter mbind result_bind]. by rewrite Hout.
    + intros k article Hk. destruct (Hmap k article Hk) as (fields & -> & Hentry).
      by exists fields.
  - intros Hbad. destruct (collect_news_unprintable articles Hbad) as [msg Hmsg].
    exists msg. unfold search_news. cbn [py_get mbind result_bind]. rewrite Hd.
    cbn [from_option id py_iter mbind result_bind]. by rewrite Hmsg.
Qed.

Lemma search_news_maps_articles_witness :
  search_news
    (HttpJson (VDict [("status", VStr "ok");
                      ("articles",
                       VList [VDict [("source", VDict [("id", VNone);
                                                       ("name", VStr "Reuters")]);
                                     ("title", VStr "Model Y");
                                     ("publishedAt", VStr "2024-01-05T10:00:00Z")]])]))
  = Ok (VList [VDict [("title", VStr "Model Y"); ("description", VNone);
                      ("source", VStr "Reuters"); ("author", VNone); ("url", VNone);
                      ("published_at", VStr "2024-01-05T10:00:00Z");
                      ("content", VNone)]])
  ∧
  ∃ msg,
    search_news
      (HttpJson (VDict [("articles", VList [VDict [("title", VStr "ok")]; VStr "x"])]))
    = Raise (AttributeError msg).
Proof.
  split; [reflexivity|].
  destruct (search_news_maps_articles
              [("articles", VList [VDict [("title", VStr "ok")]; VStr "x"])]
              [VDict [("title", VStr "ok")]; VStr "x"] eq_refl) as [_ Hbad].
  apply Hbad. reflexivity.
Defined.

Section AnswerBox.
Variable repr_str : string → string.

(** X22. [get_answer_box] looks at the answer box first and at the
    knowledge graph only when the answer box is missing or false; inside
    the answer box it takes "answer" and falls back to "snippet" when
    "answer" is missing or false.  With neither box it returns [None], which
    is no error payload, so the step succeeds, and as final data the
    verifier reports "No data returned from tools". *)
Theorem get_answer_box_priority (task : string) (d : list (string * value)) :
  (∀ box, dict_get "answer_box" d = Some (VDict box) → box ≠ [] →
     get_answer_box (HttpJson (VDict d))
     = Ok (VDict [("answer",
                   if truthy (default VNone (dict_get "answer" box))
                   then default VNone (dict_get "answer" box)
                   else default VNone (dict_get "snippet" box));
                  ("title", default VNone (dict_get "title" box));
                  ("link", default VNone (dict_get "link" box));
                  ("type", default VNone (dict_get "type" box))])) ∧
  (truthy (default VNone (dict_get "answer_box" d)) = false →
   ∀ graph, dict_get "knowledge_graph" d = Some (VDict graph) → graph ≠ [] →
     get_answer_box (HttpJson (VDict d))
     = Ok (VDict [("answer", default VNone (dict_get "description" graph));
                  ("title", default VNone (dict_get "title" graph));
                  ("type", VStr "knowledge_graph")])) ∧
  (truthy (default VNone (dict_get "answer_box" d)) = false →
   truthy (default VNone (dict_get "knowledge_graph" d)) = false →
   get_answer_box (HttpJson (VDict d)) = Ok VNone ∧
   is_error_payload VNone = false ∧
   ∀ r plan, errors r = [] → final_data r = Some VNone →
     verify_results repr_str task r plan
     = Ok (incomplete "No data returned from tools" r "low")).
Proof.
  split; [|split].
  - intros box Hbox Hne.
    assert (truthy (VDict box) = true) as Htrue by by destruct box.
    unfold get_answer_box. cbn [py_get mbind result_bind]. rewrite Hbox.
    cbn [from_option id]. rewrite Htrue. cbn [py_get mbind result_bind]. unfold py_or.
    by destruct (truthy (default VNone (dict_get "answer" box))).
  - intros Hfalse graph Hgraph Hne.
    assert (truthy (VDict graph) = true) as Htrue by by destruct graph.
    unfold get_answer_box. cbn [py_get mbind result_bind]. rewrite Hfalse, Hgraph.
    cbn [from_option id]. rewrite Htrue. reflexivity.
  - intros Hbox Hgraph. split; [|split; [done|]].
    + unfold get_answer_box. cbn [py_get mbind result_bind].
      by rewrite Hbox, Hgraph.
    + intros r plan Herr Hfinal. unfold verify_results. by rewrite Herr, Hfinal.
Qed.
End AnswerBox.

Lemma get_answer_box_priority_witness :
  get_answer_box
    (HttpJson (VDict [("answer_box", VDict [("answer", VStr EmptyString);
                                            ("snippet", VStr "Paris is the capital.")]);
                      ("knowledge_graph", VDict [("description", VStr "ignored")])]))
  = Ok (VDict [("answer", VStr "Paris is the capital."); ("title", VNone);
               ("link", VNone); ("type", VNone)]).
Proof.
  destruct (get_answer_box_priority sample_repr "capital of France"
              [("answer_box", VDict [("answer", VStr EmptyString);
                                     ("snippet", VStr "Paris is the capital.")]);
               ("knowledge_graph", VDict [("description", VStr "ignored")])])
    as (Hbox & _ & _).
  apply (Hbox [("answer", VStr EmptyString); ("snippet", VStr "Paris is the capital.")]).
  - reflexivity.
  - discriminate.
Defined.

Lemma current_weather_is_reported_witness :
  ∃ v,
    get_current_weather
      (HttpJson (VDict [("name", VStr "Paris");
                        ("main", VDict [("temp", VInt 21); ("humidity", VInt 40)]);
                        ("weather", VList [VDict [("description", VStr "clear sky")]]);
                        ("wind", VDict [("speed", VFloat "3.1")])]))
      (VStr "metric")
    = Ok v ∧
    is_error_payload v = false.
Proof.
  eexists. split; [reflexivity|].
  destruct (current_weather_is_reported sample_repr "weather in Paris"
              (VDict [("name", VStr "Paris");
                      ("main", VDict [("temp", VInt 21); ("humidity", VInt 40)]);
                      ("weather", VList [VDict [("description", VStr "clear sky")]]);
                      ("wind", VDict [("speed", VFloat "3.1")])])
              (VStr "metric") _ eq_refl)
    as (temperature & description & humidity & wind_speed & _ & _ & _ & _ & Hnot & _).
  exact Hnot.
Defined.

Lemma list_connector_failure_passes_witness :
  execute_step sample_agent (sample_step 1 "news" "search_news")
    (sample_env [search_news (HttpFailed "timed out")])
  = (Ok (VList [VDict [("error", VStr "News API request failed: timed out")]]),
     {| world := []; log := [invocation_of (sample_step 1 "news" "search_news")] |}).
Proof.
  destruct (list_connector_failure_passes sample_repr sample_agent
              (sample_step 1 "news" "search_news") (news sample_agent)
              (sample_env [search_news (HttpFailed "timed out")]) []
              "timed out" "news about Tesla" (search_news (HttpFailed "timed out"))
              (or_introl eq_refl) eq_refl eq_refl eq_refl)
    as (detail & Hdetail & Hstep & _).
  rewrite Hstep. vm_compute in Hstep. injection Hstep as <-. reflexivity.
Defined.

Lemma dict_connector_failure_is_retried_witness :
  execute_step sample_agent (sample_step 1 "weather" "get_current_weather")
    (sample_env [get_current_weather (HttpFailed "timed out") (VStr "metric");
                 Ok sample_weather])
  = (Ok sample_weather,
     {| world := [];
        log := [invocation_of (sample_step 1 "weather" "get_current_weather");
                invocation_of (sample_step 1 "weather" "get_current_weather")] |}).
Proof.
  destruct (dict_connector_failure_is_retried sample_agent
              (sample_step 1 "weather" "get_current_weather") (weather sample_agent)
              (sample_env [get_current_weather (HttpFailed "timed out") (VStr "metric");
                           Ok sample_weather])
              [Ok sample_weather] [] "timed out" (VStr "metric")
              (get_current_weather (HttpFailed "timed out") (VStr "metric"))
              (Ok sample_weather)
              (or_introl eq_refl) eq_refl eq_refl eq_refl eq_refl) as [_ Hstep].
  exact Hstep.
Defined.

Lemma list_connector_results_are_printed_witness :
  format_final_answer sample_repr "news about Tesla"
    (VList [VDict [("error", VStr "News API request failed: timed out")]])
  = Ok "[{'error': 'News API request failed: timed out'}]".
Proof.
  destruct (list_connector_results_are_printed sample_repr "news about Tesla"
              (HttpFailed "timed out") (search_news (HttpFailed "timed out"))
              (VList [VDict [("error", VStr "News API request failed: timed out")]])
              (or_introl eq_refl) eq_refl) as (items & _ & _ & Hfmt).
  rewrite Hfmt. reflexivity.
Defined.

Lemma collect_length (build : value → result value) (items out : list value) :
  collect build items = Ok out → length out = length items.
Proof.
  intros H. apply collect_Forall2 in H. symmetry. by eapply Forall2_length.
Qed.

Section WeatherLayout.
Variable repr_str : string → string.
Variable dict_slice_error : exn.

(** X23. Of the three weather methods only [get_current_weather] and
    [get_weather_by_coordinates] produce what the verifier lays out as a
    weather report.  What [get_weather_forecast] returns holds at most
    eight forecasts (all of them when the response lists eight or fewer)
    under "forecasts" and has no "temperature" entry of its own, so the
    verifier prints it with the generic [str]. *)
Theorem forecast_is_capped_and_printed (task : string) (data units v : value) :
  get_weather_forecast dict_slice_error (HttpJson data) units = Ok v →
  ∃ city country forecasts,
    v = VDict [("city", city); ("country", country); ("forecasts", VList forecasts);
               ("units", VStr (units_label units))] ∧
    (length forecasts ≤ 8)%nat ∧
    (∀ d listed, data = VDict d → dict_get "list" d = Some (VList listed) →
       length forecasts = Nat.min 8 (length listed)) ∧
    is_error_payload v = false ∧
    format_final_answer repr_str task v = Ok (py_str repr_str v).
Proof.
  unfold get_weather_forecast.
  destruct (py_get data "list" (VList [])) as [listed|] eqn:Hlisted; simpl; [|done].
  destruct (py_first8 dict_slice_error listed) as [next_day|] eqn:Hslice; simpl; [|done].
  destruct (py_iter next_day) as [items|] eqn:Hiter; simpl; [|done].
  destruct (collect forecast_item items) as [forecasts|] eqn:Hcollect; simpl; [|done].
  destruct (get_nested data "city" "name") as [city|]; simpl; [|done].
  destruct (get_nested data "city" "country") as [country|]; simpl; [|done].
  intros [= <-]. exists city, country, forecasts. split; [done|].
  assert (length items ≤ 8)%nat as Hcap.
  { destruct listed as [| | | |s|l|]; simpl in Hslice; try done;
      injection Hslice as <-; simpl in Hiter; injection Hiter as <-.
    - destruct (code_points _) as [|c cs]; [simpl; lia|]. simpl in Hcollect. done.
    - rewrite length_take. lia. }
  apply collect_length in Hcollect.
  split; [lia|]. split; [|split; [done|reflexivity]].
  intros d l -> Hd. simpl in Hlisted. rewrite Hd in Hlisted. simpl in Hlisted.
  injection Hlisted as <-. simpl in Hslice. injection Hslice as <-.
  simpl in Hiter. injection Hiter as <-. by rewrite Hcollect, length_take.
Qed.

(** X24. What [get_weather_by_coordinates] returns for a decoded response
    is laid out by the verifier as a weather report, exactly as for
    [get_current_weather]. *)
Theorem weather_by_coordinates_is_reported (task : string) (data units v : value) :
  get_weather_by_coordinates repr_str (HttpJson data) units = Ok v →
  ∃ temperature description humidity wind_speed,
    get_nested data "main" "temp" = Ok temperature ∧
    get_first_weather data "description" = Ok description ∧
    get_nested data "main" "humidity" = Ok humidity ∧
    get_nested data "wind" "speed" = Ok wind_speed ∧
    is_error_payload v = false ∧
    format_final_answer repr_str task v
    = Ok (join nl ["Current Weather Report:";
                   "Temperature: " +:+ py_str repr_str temperature +:+ " "
                     +:+ (if eq_str units "metric" then "°C"
                          else if eq_str units "imperial" then "°F" else "K");
                   "Condition: " +:+ py_str repr_str description;
                   "Humidity: " +:+ py_str repr_str humidity +:+ "%";
                   "Wind Speed: " +:+ py_str repr_str wind_speed +:+ " m/s"]).
Proof.
  unfold get_weather_by_coordinates.
  destruct (py_get data "name" VNone) as [name|]; simpl; [|done].
  destruct (get_nested data "sys" "country") as [country|]; simpl; [|done].
  destruct (get_nested data "main" "temp") as [temperature|]; simpl; [|done].
  destruct (get_nested data "main" "feels_like") as [feels_like|]; simpl; [|done].
  destruct (get_first_weather data "main") as [weather_main|]; simpl; [|done].
  destruct (get_first_weather data "description") as [description|]; simpl; [|done].
  destruct (get_nested data "main" "humidity") as [humidity|]; simpl; [|done].
  destruct (get_nested data "wind" "speed") as [wind_speed|]; simpl; [|done].
  intros [= <-]. exists temperature, description, humidity, wind_speed.
  repeat (split; [done|]).
  unfold format_final_answer, weather_report. simpl.
  f_equal. unfold units_label. by rewrite !string_app_assoc.
Qed.
End WeatherLayout.

Lemma forecast_is_capped_and_printed_witness :
  ∃ v,
    get_weather_forecast (KeyError "slice(None, 8, None)")
      (HttpJson (VDict [("list", VList (replicate 10 (VDict [("dt_txt", VStr "2024-01-05")])));
                        ("city", VDict [("name", VStr "Paris")])]))
      (VStr "metric")
    = Ok v ∧
    is_error_payload v = false.
Proof.
  eexists. split; [reflexivity|].
  destruct (forecast_is_capped_and_printed sample_repr (KeyError "slice(None, 8, None)")
              "forecast for Paris"
              (VDict [("list", VList (replicate 10 (VDict [("dt_txt", VStr "2024-01-05")])));
                      ("city", VDict [("name", VStr "Paris")])])
              (VStr "metric") _ eq_refl)
    as (city & country & forecasts & _ & _ & _ & Hnot & _).
  exact Hnot.
Defined.

Lemma weather_by_coordinates_is_reported_witness :
  ∃ v,
    get_weather_by_coordinates sample_repr
      (HttpJson (VDict [("name", VStr "Paris");
                        ("sys", VDict [("country", VStr "FR")]);
                        ("main", VDict [("temp", VInt 21); ("humidity", VInt 40)])]))
      (VStr "imperial")
    = Ok v ∧
    is_error_payload v = false.
Proof.
  eexists. split; [reflexivity|].
  destruct (weather_by_coordinates_is_reported sample_repr "weather here"
              (VDict [("name", VStr "Paris");
                      ("sys", VDict [("country", VStr "FR")]);
                      ("main", VDict [("temp", VInt 21); ("humidity", VInt 40)])])
              (VStr "imperial") _ eq_refl)
    as (temperature & description & humidity & wind_speed & _ & _ & _ & _ & Hnot & _).
  exact Hnot.
Defined.
